(** * make_doe_json: spreadsheet rows to the simulator's nested document

    Shallow embedding of [make_doe_json.py] and the properties of its
    base distributor, cell normalizer, suppression-tactic builder and
    row loop.

    Conventions of the embedding:
    - Python [int] is [Z]; [//] and [%] are [Z.div] and [Z.modulo]
      (both round towards minus infinity, the remainder has the sign of
      the divisor, as in Python).
    - Python [float] is [spec_float] (sign, mantissa, exponent).
    - Python [str] is [string]; its characters are read as the code
      points 0..255.
    - a [dict] that is written out as JSON is an insertion-ordered
      association list; the row (a pandas Series indexed by column name)
      is a [gmap string cell].
    - a Python exception is the [Raise] branch of [result]. *)

From Stdlib Require Import ZArith Ascii.
From Stdlib Require Import Floats.SpecFloat.
From stdpp Require Import base numbers option list strings gmap pretty.

Local Open Scope string_scope.
Local Open Scope list_scope.
Local Open Scope Z_scope.

(** ** Exceptions *)

Inductive exn : Set :=
| ZeroDivisionError
| IndexError
| ValueError
| TypeError
| AttributeError
| OverflowError.

Inductive result (A : Type) : Type :=
| Ok (a : A)
| Raise (e : exn).
Arguments Ok {A} a.
Arguments Raise {A} e.

Definition bind {A B : Type} (m : result A) (k : A -> result B) : result B :=
  match m with
  | Ok a => k a
  | Raise e => Raise e
  end.

Notation "'let*' x ':=' m 'in' k" := (bind m (fun x => k))
  (at level 10, x name, m at level 100, k at level 200).

(** ** Base distributor *)

(** [[x] * n]: the empty list when [n <= 0]. *)
Definition list_mul {A : Type} (x : A) (n : Z) : list A :=
  replicate (Z.to_nat n) x.

(** [counts[i] += 1] for an index [i >= 0]. *)
Definition incr_at (counts : list Z) (i : nat) : result (list Z) :=
  match counts !! i with
  | Some c => Ok (<[i := c + 1]> counts)
  | None => Raise IndexError
  end.

(** [for i in range(lo, lo + n): st = body(i, st)] *)
Fixpoint for_range {S : Type} (lo n : nat) (body : nat -> S -> result S)
    (st : S) : result S :=
  match n with
  | O => Ok st
  | Datatypes.S n' =>
      let* st' := body lo st in
      for_range (Datatypes.S lo) n' body st'
  end.

Definition distribute_across_bases (total num_bases : Z) : result (list Z) :=
  if total >=? num_bases then
    if num_bases =? 0 then Raise ZeroDivisionError
    else
      let base := total `div` num_bases in
      let remainder := total `mod` num_bases in
      let counts := list_mul base num_bases in
      for_range 0 (Z.to_nat remainder) (fun i counts => incr_at counts i) counts
  else
    Ok (list_mul 1 total ++ list_mul 0 (num_bases - total)).

Definition sum_list (l : list Z) : Z := foldr Z.add 0 l.

(** ** Text *)

(** The code points below 256 that Python's [str.strip()] and
    [str.isspace()] treat as white space: TAB..CR, FS..US, SPACE,
    NEL (0x85) and NBSP (0xA0). *)
Definition is_space (c : ascii) : bool :=
  let n := N_of_ascii c in
  (((9 <=? n) && (n <=? 13)) || ((28 <=? n) && (n <=? 32))
   || (n =? 133) || (n =? 160))%N.

Fixpoint lstrip (s : string) : string :=
  match s with
  | EmptyString => EmptyString
  | String c s' => if is_space c then lstrip s' else s
  end.

Fixpoint rstrip (s : string) : string :=
  match s with
  | EmptyString => EmptyString
  | String c s' =>
      match rstrip s' with
      | EmptyString => if is_space c then EmptyString else String c EmptyString
      | t => String c t
      end
  end.

(** [s.strip()] *)
Definition strip (s : string) : string := rstrip (lstrip s).

(** [str.lower()] on one code point below 256: A..Z and the Latin-1
    capitals 0xC0..0xDE (0xD7, the multiplication sign, excepted). *)
Definition lower_char (c : ascii) : ascii :=
  let n := N_of_ascii c in
  if (((65 <=? n) && (n <=? 90))
      || ((192 <=? n) && (n <=? 222) && negb (n =? 215)))%N
  then ascii_of_N (n + 32) else c.

(** [s.lower()] *)
Fixpoint lower (s : string) : string :=
  match s with
  | EmptyString => EmptyString
  | String c s' => String (lower_char c) (lower s')
  end.

(** ** Cells and documents *)

(** What [row.get(column)] can hold: [None] when the sheet has no such
    column, text, an integer, a float (a blank cell is the float NaN) or
    a boolean. *)
Inductive cell : Set :=
| CNone
| CStr (s : string)
| CInt (z : Z)
| CFloat (f : spec_float)
| CBool (b : bool).

(** The values that are built and written out as JSON. *)
#[local] Unset Elimination Schemes.
Inductive value : Set :=
| Scalar (c : cell)
| VList (l : list value)
| VDict (d : list (string * value)).
#[local] Set Elimination Schemes.

Definition VStr (s : string) : value := Scalar (CStr s).
Definition VInt (z : Z) : value := Scalar (CInt z).

(** A [dict] keeps its keys in insertion order; [d[k] = v] replaces the
    value of a key that is there and appends a new key otherwise. *)
Definition dict : Set := list (string * value).

Fixpoint dict_get (k : string) (d : dict) : option value :=
  match d with
  | [] => None
  | (k', v) :: d' => if String.eqb k k' then Some v else dict_get k d'
  end.

Fixpoint dict_set (k : string) (v : value) (d : dict) : dict :=
  match d with
  | [] => [(k, v)]
  | (k', v') :: d' =>
      if String.eqb k k' then (k, v) :: d' else (k', v') :: dict_set k v d'
  end.

(** [d.get(k, dflt)] *)
Definition dict_get_default (k : string) (dflt : value) (d : dict) : value :=
  default dflt (dict_get k d).

(** [pd.isna(val)] on a scalar. *)
Definition isna (c : cell) : bool :=
  match c with
  | CNone => true
  | CFloat S754_nan => true
  | _ => false
  end.

(** [bool(val)]: the truth value used by [if], [or] and [any]. *)
Definition truthy (c : cell) : bool :=
  match c with
  | CNone => false
  | CStr s => negb (String.eqb s "")
  | CInt z => negb (z =? 0)
  | CFloat (S754_zero _) => false
  | CFloat _ => true
  | CBool b => b
  end.

(** [any(l)] *)
Definition any (l : list cell) : bool := existsb truthy l.

(** [a or b] *)
Definition py_or (a b : cell) : cell := if truthy a then a else b.

(** [f.is_integer()]: the float is finite and has no fractional part. *)
Definition float_is_integer (f : spec_float) : bool :=
  match f with
  | S754_zero _ => true
  | S754_finite _ m e => (0 <=? e) || (Z.pos m `mod` 2 ^ (- e) =? 0)
  | S754_infinity _ => false
  | S754_nan => false
  end.

(** [int(f)]: truncation towards zero. *)
Definition float_to_int (f : spec_float) : result Z :=
  match f with
  | S754_zero _ => Ok 0
  | S754_finite s m e =>
      let a := if 0 <=? e then Z.pos m * 2 ^ e else Z.pos m `div` 2 ^ (- e) in
      Ok (if s then - a else a)
  | S754_infinity _ => Raise OverflowError
  | S754_nan => Raise ValueError
  end.

(** [float(z)] succeeds when [z] rounds to a finite double. *)
Definition int_fits_float (z : Z) : bool :=
  Z.abs z <? 2 ^ 1024 - 2 ^ 970.

(** [isinstance(val, (float, int))]; [bool] is a subclass of [int]. *)
Definition is_float_or_int (c : cell) : bool :=
  match c with
  | CInt _ | CFloat _ | CBool _ => true
  | CNone | CStr _ => false
  end.

Definition NUM_BASES : Z := 2.
Definition AIRCRAFT_FILE : string := "SUT_series_hybrid.json".

Definition row_get (row : gmap string cell) (k : string) (dflt : cell) : cell :=
  default dflt (row !! k).

(** Stand-ins for the two runtime parameters of the section below, for
    closed examples on rows that hold no float in a text column and no
    text in a count column. *)
Definition sample_float_repr : spec_float -> string := fun _ => "".
Definition sample_int_of_str : string -> option Z := fun _ => None.

(** ** The functions of the script

    Two functions of the Python runtime are parameters: the text of a
    float ([str(f)], its shortest round-trip form) and the parser behind
    [int(text)]. *)
Section Script.

Variable float_repr : spec_float -> string.
Variable int_of_str : string -> option Z.

(** [str(val)] *)
Definition py_str (c : cell) : string :=
  match c with
  | CNone => "None"
  | CStr s => s
  | CInt z => pretty z
  | CFloat f => float_repr f
  | CBool true => "True"
  | CBool false => "False"
  end.

(** [int(val)] *)
Definition py_int (c : cell) : result Z :=
  match c with
  | CNone => Raise TypeError
  | CStr s =>
      match int_of_str s with
      | Some z => Ok z
      | None => Raise ValueError
      end
  | CInt z => Ok z
  | CFloat f => float_to_int f
  | CBool b => Ok (if b then 1 else 0)
  end.

(** [float(val).is_integer()].  The script evaluates it only after
    [isinstance(val, (float, int))] has held, so only the three numeric
    branches are ever reached; an integer is its own float unless it is
    beyond the doubles, where [float] raises. *)
Definition as_float_is_integer (c : cell) : result bool :=
  match c with
  | CInt z => if int_fits_float z then Ok true else Raise OverflowError
  | CFloat f => Ok (float_is_integer f)
  | CBool _ => Ok true
  | CNone => Raise TypeError
  | CStr _ => Raise ValueError
  end.

Definition safe_str (val : cell) : cell :=
  if isna val then CNone
  else
    let s := strip (py_str val) in
    if negb (String.eqb s "") then CStr s else CNone.

(** [int(val) if isinstance(val, (float, int)) and float(val).is_integer()
    else val], the expression of both threshold branches. *)
Definition collapse_integral (val : cell) : result cell :=
  if is_float_or_int val then
    let* integral := as_float_is_integer val in
    if integral then
      let* z := py_int val in Ok (CInt z)
    else Ok val
  else Ok val.

(** [v.lower()]: only text has the method. *)
Definition value_lower (v : value) : result string :=
  match v with
  | Scalar (CStr s) => Ok (lower s)
  | _ => Raise AttributeError
  end.

Definition build_suppression (main_prefix alt_prefix : string)
    (row : gmap string cell) : result dict :=
  let get k := row_get row k CNone in
  let main : dict := [] in
  let main :=
    if truthy (safe_str (get (main_prefix +:+ "select_poi")))
    then dict_set "select_poi"
           (Scalar (safe_str (get (main_prefix +:+ "select_poi")))) main
    else main in
  let main :=
    if truthy (safe_str (get (main_prefix +:+ "track_poi")))
    then dict_set "track_poi"
           (Scalar (safe_str (get (main_prefix +:+ "track_poi")))) main
    else main in
  let main :=
    if truthy (safe_str (get (main_prefix +:+ "suppress")))
    then dict_set "suppress"
           (Scalar (safe_str (get (main_prefix +:+ "suppress")))) main
    else main in
  let tactic : dict := [("main", VDict main)] in
  let alt_fields :=
    [ safe_str (get (alt_prefix +:+ "select_poi"));
      safe_str (get (alt_prefix +:+ "track_poi"));
      safe_str (get (alt_prefix +:+ "suppress"));
      safe_str (get (alt_prefix +:+ "change_condition"));
      if isna (get (alt_prefix +:+ "threshold")) then CNone
      else get (alt_prefix +:+ "threshold") ] in
  let main_cond_thresh :=
    any [ safe_str (get (main_prefix +:+ "change_condition"));
          if isna (get (main_prefix +:+ "threshold")) then CNone
          else get (main_prefix +:+ "threshold") ] in
  let alt_present := any alt_fields || main_cond_thresh in
  if alt_present then
    let alt_tactic : dict := [] in
    let* alt_tactic :=
      if truthy (safe_str (get (alt_prefix +:+ "select_poi")))
      then Ok (dict_set "select_poi"
                 (Scalar (safe_str (get (alt_prefix +:+ "select_poi"))))
                 alt_tactic)
      else
        let* main_sel :=
          value_lower (dict_get_default "select_poi" (VStr "") main) in
        if String.eqb main_sel "vegetation"
        then Ok (dict_set "select_poi" (VStr "water") alt_tactic)
        else if String.eqb main_sel "water"
        then Ok (dict_set "select_poi" (VStr "vegetation") alt_tactic)
        else Ok (dict_set "select_poi" (VStr "vegetation") alt_tactic) in
    let alt_tactic :=
      dict_set "track_poi"
        (Scalar (py_or (safe_str (get (alt_prefix +:+ "track_poi")))
                       (CStr "follow_firefront"))) alt_tactic in
    let alt_tactic :=
      dict_set "suppress"
        (Scalar (py_or (safe_str (get (alt_prefix +:+ "suppress")))
                       (CStr "direct"))) alt_tactic in
    let alt_obj : dict := [] in
    let change_cond :=
      py_or (safe_str (get (alt_prefix +:+ "change_condition")))
            (safe_str (get (main_prefix +:+ "change_condition"))) in
    let alt_obj :=
      if truthy change_cond
      then dict_set "change_condition" (Scalar change_cond) alt_obj
      else alt_obj in
    let thresh := CNone in
    let* thresh :=
      if negb (isna (get (alt_prefix +:+ "threshold"))) then
        let val := get (alt_prefix +:+ "threshold") in
        collapse_integral val
      else if negb (isna (get (main_prefix +:+ "threshold"))) then
        let val := get (main_prefix +:+ "threshold") in
        collapse_integral val
      else Ok thresh in
    let alt_obj :=
      match thresh with
      | CNone => alt_obj
      | _ => dict_set "threshold" (Scalar thresh) alt_obj
      end in
    let alt_obj := dict_set "alternative_tactic" (VDict alt_tactic) alt_obj in
    Ok (dict_set "alternative" (VDict alt_obj) tactic)
  else Ok tactic.

(** [int(row.get(col, 0)) if pd.notna(row.get(col)) else 0] *)
Definition group_count (row : gmap string cell) (col : string) : result Z :=
  if negb (isna (row_get row col CNone))
  then py_int (row_get row col (CInt 0))
  else Ok 0.

(** The appended entry of one group. *)
Definition group_entry (apb : list Z) (suppression : dict) : value :=
  VDict [ ("file_name", VStr AIRCRAFT_FILE);
          ("agents_per_base", VList (VInt <$> apb));
          ("suppression_tactic", VDict suppression) ].

(** One group of the loop body: [scenario_entries] after the group's
    [if count > 0:] block. *)
Definition add_group (col main_prefix alt_prefix : string)
    (row : gmap string cell) (scenario_entries : list value)
    : result (list value) :=
  let* count := group_count row col in
  if count >? 0 then
    let* apb := distribute_across_bases count NUM_BASES in
    let* suppression := build_suppression main_prefix alt_prefix row in
    Ok (scenario_entries ++ [group_entry apb suppression])
  else Ok scenario_entries.

(** The body of [for _, row in df.iterrows():], as a function of the
    list [scenarios] built so far. *)
Definition process_row (scenarios : list value) (row : gmap string cell)
    : result (list value) :=
  let scen := row_get row "scenario" CNone in
  if isna scen || String.eqb (strip (py_str scen)) "" then Ok scenarios
  else
    let scenario_entries : list value := [] in
    let* scenario_entries :=
      add_group "first group" "g1_" "g1a_" row scenario_entries in
    let* scenario_entries :=
      add_group "second group" "g2_" "g2a_" row scenario_entries in
    match scenario_entries with
    | [] => Ok scenarios
    | _ :: _ => Ok (scenarios ++ [VList scenario_entries])
    end.

(** The loop of [main] over the rows of the (forward-filled) sheet. *)
Fixpoint main_loop (scenarios : list value) (rows : list (gmap string cell))
    : result (list value) :=
  match rows with
  | [] => Ok scenarios
  | row :: rows' =>
      let* scenarios' := process_row scenarios row in
      main_loop scenarios' rows'
  end.

(** ** The parts of [build_suppression]

    The same expressions as in [build_suppression], under names of their
    own; [build_suppression_parts] below shows that the function is
    their composition. *)

(** [row.get(f"{prefix}{name}")] *)
Definition field (row : gmap string cell) (prefix name : string) : cell :=
  row_get row (prefix +:+ name) CNone.

(** The dictionary [main] at line [tactic = {"main": main}]. *)
Definition main_tactic (main_prefix : string) (row : gmap string cell) : dict :=
  let main : dict := [] in
  let main :=
    if truthy (safe_str (field row main_prefix "select_poi"))
    then dict_set "select_poi"
           (Scalar (safe_str (field row main_prefix "select_poi"))) main
    else main in
  let main :=
    if truthy (safe_str (field row main_prefix "track_poi"))
    then dict_set "track_poi"
           (Scalar (safe_str (field row main_prefix "track_poi"))) main
    else main in
  if truthy (safe_str (field row main_prefix "suppress"))
  then dict_set "suppress"
         (Scalar (safe_str (field row main_prefix "suppress"))) main
  else main.

(** [None if pd.isna(v) else v] *)
Definition none_if_na (v : cell) : cell := if isna v then CNone else v.

(** The flag [alt_present]. *)
Definition alt_present (main_prefix alt_prefix : string)
    (row : gmap string cell) : bool :=
  any [ safe_str (field row alt_prefix "select_poi");
        safe_str (field row alt_prefix "track_poi");
        safe_str (field row alt_prefix "suppress");
        safe_str (field row alt_prefix "change_condition");
        none_if_na (field row alt_prefix "threshold") ]
  || any [ safe_str (field row main_prefix "change_condition");
           none_if_na (field row main_prefix "threshold") ].

(** The dictionary [alt_tactic] once its three keys are set. *)
Definition alt_tactic (main_prefix alt_prefix : string)
    (row : gmap string cell) : result dict :=
  let* alt_tactic :=
    if truthy (safe_str (field row alt_prefix "select_poi"))
    then Ok (dict_set "select_poi"
               (Scalar (safe_str (field row alt_prefix "select_poi"))) [])
    else
      let* main_sel :=
        value_lower (dict_get_default "select_poi" (VStr "")
                       (main_tactic main_prefix row)) in
      if String.eqb main_sel "vegetation"
      then Ok (dict_set "select_poi" (VStr "water") [])
      else if String.eqb main_sel "water"
      then Ok (dict_set "select_poi" (VStr "vegetation") [])
      else Ok (dict_set "select_poi" (VStr "vegetation") []) in
  let alt_tactic :=
    dict_set "track_poi"
      (Scalar (py_or (safe_str (field row alt_prefix "track_poi"))
                     (CStr "follow_firefront"))) alt_tactic in
  Ok (dict_set "suppress"
        (Scalar (py_or (safe_str (field row alt_prefix "suppress"))
                       (CStr "direct"))) alt_tactic).

(** The variable [change_cond]. *)
Definition change_cond (main_prefix alt_prefix : string)
    (row : gmap string cell) : cell :=
  py_or (safe_str (field row alt_prefix "change_condition"))
        (safe_str (field row main_prefix "change_condition")).

(** The variable [thresh] after the [if]/[elif]. *)
Definition thresh (main_prefix alt_prefix : string)
    (row : gmap string cell) : result cell :=
  if negb (isna (field row alt_prefix "threshold")) then
    collapse_integral (field row alt_prefix "threshold")
  else if negb (isna (field row main_prefix "threshold")) then
    collapse_integral (field row main_prefix "threshold")
  else Ok CNone.

(** The dictionary [alt_obj] once its keys are set. *)
Definition alt_obj (cond th : cell) (tac : dict) : dict :=
  let alt_obj : dict := [] in
  let alt_obj :=
    if truthy cond then dict_set "change_condition" (Scalar cond) alt_obj
    else alt_obj in
  let alt_obj :=
    match th with
    | CNone => alt_obj
    | _ => dict_set "threshold" (Scalar th) alt_obj
    end in
  dict_set "alternative_tactic" (VDict tac) alt_obj.

(** ** Vocabulary of the statements *)

(** Every character of [s] is white space. *)
Fixpoint all_space (s : string) : bool :=
  match s with
  | EmptyString => true
  | String c s' => is_space c && all_space s'
  end.

(** No character of [s] is white space. *)
Fixpoint no_space (s : string) : bool :=
  match s with
  | EmptyString => true
  | String c s' => negb (is_space c) && no_space s'
  end.

Definition first_char (s : string) : option ascii :=
  match s with
  | EmptyString => None
  | String c _ => Some c
  end.

Fixpoint last_char (s : string) : option ascii :=
  match s with
  | EmptyString => None
  | String c EmptyString => Some c
  | String _ s' => last_char s'
  end.

(** [s] is not empty and neither starts nor ends with white space. *)
Definition trimmed (s : string) : Prop :=
  (exists c, first_char s = Some c /\ is_space c = false)
  /\ (exists c, last_char s = Some c /\ is_space c = false).

(** The float [f] is exactly the integer [z]: with [f = (-1)^s m 2^e],
    the equation [z = f] cleared of the negative power of two. *)
Definition float_exact (f : spec_float) (z : Z) : Prop :=
  match f with
  | S754_zero _ => z = 0
  | S754_finite s m e =>
      z * 2 ^ Z.max 0 (- e)
      = (if s then - Z.pos m else Z.pos m) * 2 ^ Z.max 0 e
  | S754_infinity _ => False
  | S754_nan => False
  end.

(** The integer collapse in the words of the specification: a numeric
    value that is exactly integral becomes that integer, any other value
    stays as it is. *)
Definition collapsed (val out : cell) : Prop :=
  match val with
  | CInt z => out = CInt z
  | CBool b => out = CInt (if b then 1 else 0)
  | CFloat f =>
      (forall z, float_exact f z -> out = CInt z)
      /\ ((forall z, ~ float_exact f z) -> out = val)
  | CStr _ | CNone => out = val
  end.

(** The text that [main.get("select_poi", "")] yields. *)
Definition main_select (main_prefix : string) (row : gmap string cell)
    : string :=
  match safe_str (field row main_prefix "select_poi") with
  | CStr s => s
  | _ => ""
  end.

(** The alternative-presence test in the words of the specification: one
    of the four alternative-prefixed text fields is not [None], or the
    alternative-prefixed threshold is present, or the main-prefixed change
    condition is not [None], or the main-prefixed threshold is present. *)
Definition present (c : cell) : bool :=
  match c with
  | CNone => false
  | _ => true
  end.

Definition alt_present_spec (main_prefix alt_prefix : string)
    (row : gmap string cell) : bool :=
  (present (safe_str (field row alt_prefix "select_poi"))
   || present (safe_str (field row alt_prefix "track_poi"))
   || present (safe_str (field row alt_prefix "suppress"))
   || present (safe_str (field row alt_prefix "change_condition")))
  || negb (isna (field row alt_prefix "threshold"))
  || present (safe_str (field row main_prefix "change_condition"))
  || negb (isna (field row main_prefix "threshold")).

(** A threshold cell that [float()] accepts. *)
Definition threshold_in_range (c : cell) : Prop :=
  forall z, c = CInt z -> int_fits_float z = true.

(** The keys of a dictionary, in the order in which it is written. *)
Definition dict_keys (d : dict) : list string := d.*1.

(** The five field names that are read under each prefix. *)
Definition tactic_fields : list string :=
  [ "select_poi"; "track_poi"; "suppress"; "change_condition"; "threshold" ].

(** The condition under which the flag [alt_present] is set, on the cells
    of the row: a text field under the alternative prefix or one of the
    two change conditions normalizes to text, or a threshold is present
    and counts as true. *)
Definition alt_trigger (main_prefix alt_prefix : string)
    (row : gmap string cell) : bool :=
  present (safe_str (field row alt_prefix "select_poi"))
  || present (safe_str (field row alt_prefix "track_poi"))
  || present (safe_str (field row alt_prefix "suppress"))
  || present (safe_str (field row alt_prefix "change_condition"))
  || (negb (isna (field row alt_prefix "threshold"))
      && truthy (field row alt_prefix "threshold"))
  || present (safe_str (field row main_prefix "change_condition"))
  || (negb (isna (field row main_prefix "threshold"))
      && truthy (field row main_prefix "threshold")).

(** The threshold cell that the [if]/[elif] of the builder selects. *)
Definition selected_threshold (main_prefix alt_prefix : string)
    (row : gmap string cell) : cell :=
  if negb (isna (field row alt_prefix "threshold"))
  then field row alt_prefix "threshold"
  else field row main_prefix "threshold".

(** The shape of one group entry: the three keys in their order, the
    constant file name, one non-negative count per base with a positive
    sum, and a tactic block with a main tactic. *)
Definition well_formed_entry (e : value) : Prop :=
  exists apb sup m,
    e = VDict [ ("file_name", VStr "SUT_series_hybrid.json");
                ("agents_per_base", VList (VInt <$> apb));
                ("suppression_tactic", VDict sup) ]
    /\ Z.of_nat (length apb) = 2
    /\ 0 < sum_list apb
    /\ (forall i c, apb !! i = Some c -> 0 <= c)
    /\ dict_get "main" sup = Some (VDict m).

(** The shape of one scenario of the list: one or two entries. *)
Definition well_formed_scenario (v : value) : Prop :=
  exists es,
    v = VList es
    /\ (1 <= length es <= 2)%nat
    /\ Forall well_formed_entry es.

(** ** Sample rows *)

(** Only the alternative-prefixed [select_poi] of group 1 is filled in. *)
Definition row_alt_select_only : gmap string cell :=
  {[ "g1a_select_poi" := CStr "water" ]}.

(** Only the alternative-prefixed threshold of group 1 is filled in, with
    the number zero: as an integer, and as the float [0.0]. *)
Definition row_alt_threshold_zero : gmap string cell :=
  {[ "g1a_threshold" := CInt 0 ]}.

Definition row_alt_threshold_zero_float : gmap string cell :=
  {[ "g1a_threshold" := CFloat (S754_zero false) ]}.

(** Two scenarios: both groups with a change condition on group 1, then
    the second group alone. *)
Definition row_both_groups : gmap string cell :=
  <[ "scenario" := CStr "S1" ]>
    (<[ "first group" := CInt 3 ]>
       (<[ "second group" := CInt 2 ]>
          {[ "g1_change_condition" := CStr "wind_shift" ]})).

Definition row_second_group : gmap string cell :=
  <[ "scenario" := CStr "S2" ]> {[ "second group" := CInt 1 ]}.

(** Scenario S1 with five aircraft in the first group and no tactic field
    filled in. *)
Definition row_no_tactic : gmap string cell :=
  <[ "scenario" := CStr "S1" ]> {[ "first group" := CInt 5 ]}.

(** A main tactic with a change condition and the threshold 3.0 (the
    double with mantissa 3 * 2^51 and exponent -51), nothing under the
    alternative prefix. *)
Definition row_change_condition : gmap string cell :=
  <[ "g1_select_poi" := CStr "Vegetation" ]>
    (<[ "g1_change_condition" := CStr "wind_shift" ]>
       {[ "g1_threshold" := CFloat (S754_finite false 6755399441055744 (-51)) ]}).

(** A main-prefixed change condition next to an alternative-prefixed
    threshold of zero. *)
Definition row_condition_zero_threshold : gmap string cell :=
  <[ "g1_change_condition" := CStr "wind_shift" ]>
    {[ "g1a_threshold" := CInt 0 ]}.

(** The block of [row_change_condition] and its alternative object. *)
Definition sample_alt_object : dict :=
  [ ("change_condition", VStr "wind_shift");
    ("threshold", VInt 3);
    ("alternative_tactic",
     VDict [ ("select_poi", VStr "water");
             ("track_poi", VStr "follow_firefront");
             ("suppress", VStr "direct") ]) ].

Definition sample_block : dict :=
  [ ("main", VDict [ ("select_poi", VStr "Vegetation") ]);
    ("alternative", VDict sample_alt_object) ].

(** Only the change condition of [row_both_groups]. *)
Definition row_condition_only : gmap string cell :=
  {[ "g1_change_condition" := CStr "wind_shift" ]}.

(** A row whose first count is the float 2.5, and a scenario whose
    first count is the integer zero. *)
Definition row_zero_count : gmap string cell :=
  <[ "scenario" := CStr "S4" ]> {[ "first group" := CInt 0 ]}.

Definition row_fractional_count : gmap string cell :=
  {[ "first group" := CFloat (S754_finite false 5 (-1)) ]}.

(** * Properties *)

(** ** Base distributor *)

Example distribute_5_2 : distribute_across_bases 5 2 = Ok [3; 2].
Proof. reflexivity. Qed.
Example distribute_1_3 : distribute_across_bases 1 3 = Ok [1; 0; 0].
Proof. reflexivity. Qed.
Example distribute_0_2 : distribute_across_bases 0 2 = Ok [0; 0].
Proof. reflexivity. Qed.
Example distribute_4_2 : distribute_across_bases 4 2 = Ok [2; 2].
Proof. reflexivity. Qed.
Example distribute_neg : distribute_across_bases (-2) 2 = Ok [0; 0; 0; 0].
Proof. reflexivity. Qed.

Lemma sum_list_app (l1 l2 : list Z) :
  sum_list (l1 ++ l2) = sum_list l1 + sum_list l2.
Proof.
  unfold sum_list. induction l1 as [|x l1 IH]; simpl; [done|].
  rewrite IH. lia.
Qed.

Lemma sum_list_replicate (n : nat) (x : Z) :
  sum_list (replicate n x) = Z.of_nat n * x.
Proof.
  unfold sum_list. induction n as [|n IH]; [done|].
  rewrite replicate_S. simpl foldr. rewrite IH. lia.
Qed.

(** One pass of the loop body raises the first untouched position. *)
Lemma incr_at_boundary (k m : nat) (q : Z) :
  incr_at (replicate k (q + 1) ++ replicate (S m) q) k
  = Ok (replicate (S k) (q + 1) ++ replicate m q).
Proof.
  unfold incr_at.
  rewrite lookup_app_r by (rewrite length_replicate; lia).
  rewrite length_replicate, Nat.sub_diag. cbn [replicate lookup list_lookup].
  f_equal.
  rewrite insert_app_r_alt by (rewrite length_replicate; lia).
  rewrite length_replicate, Nat.sub_diag. cbn [insert list_insert].
  rewrite replicate_cons_app, <- app_assoc. done.
Qed.

(** Loop invariant: after [r] passes the first [k + r] positions hold
    [q + 1] and the others still hold [q]. *)
Lemma for_range_incr (r k m : nat) (q : Z) :
  (r <= m)%nat ->
  for_range k r (fun i counts => incr_at counts i)
    (replicate k (q + 1) ++ replicate m q)
  = Ok (replicate (k + r) (q + 1) ++ replicate (m - r) q).
Proof.
  revert k m. induction r as [|r IH]; intros k m Hle.
  - simpl. by rewrite Nat.add_0_r, Nat.sub_0_r.
  - destruct m as [|m]; [lia|].
    cbn [for_range]. rewrite incr_at_boundary. cbn [bind].
    rewrite IH by lia. do 3 f_equal; lia.
Qed.

(** Closed form of the [total >= num_bases] branch. *)
Lemma distribute_ge (total num_bases : Z) :
  1 <= num_bases -> num_bases <= total ->
  distribute_across_bases total num_bases
  = Ok (replicate (Z.to_nat (total `mod` num_bases)) (total `div` num_bases + 1)
        ++ replicate (Z.to_nat (num_bases - total `mod` num_bases))
             (total `div` num_bases)).
Proof.
  intros Hn Hle. unfold distribute_across_bases.
  destruct (Z.geb_spec total num_bases) as [_|]; [|lia].
  destruct (Z.eqb_spec num_bases 0) as [|_]; [lia|].
  pose proof (Z.mod_pos_bound total num_bases ltac:(lia)) as Hr.
  unfold list_mul.
  pose proof (for_range_incr (Z.to_nat (total `mod` num_bases)) 0
                (Z.to_nat num_bases) (total `div` num_bases) ltac:(lia)) as H.
  simpl in H. rewrite H. do 3 f_equal. lia.
Qed.

(** C3. For [total >= num_bases >= 1] the distributor returns [num_bases]
    non-negative counts that sum to [total]; the count at position [i] is
    [total // num_bases + 1] when [i < total % num_bases] and
    [total // num_bases] otherwise. *)
Theorem distribute_near_even_left_heavy (total num_bases : Z) :
  1 <= num_bases -> num_bases <= total ->
  exists counts : list Z,
    distribute_across_bases total num_bases = Ok counts
    /\ Z.of_nat (length counts) = num_bases
    /\ sum_list counts = total
    /\ (forall (i : nat) (c : Z), counts !! i = Some c ->
          0 <= c
          /\ (Z.of_nat i < total `mod` num_bases ->
                c = total `div` num_bases + 1)
          /\ (total `mod` num_bases <= Z.of_nat i ->
                c = total `div` num_bases)).
Proof.
  intros Hn Hle. eexists. split; [by apply distribute_ge|].
  pose proof (Z.mod_pos_bound total num_bases ltac:(lia)) as Hr.
  pose proof (Z.div_mod total num_bases ltac:(lia)) as Hdm.
  assert (0 <= total `div` num_bases) as Hq by (apply Z.div_pos; lia).
  split; [|split].
  - rewrite length_app, !length_replicate. lia.
  - rewrite sum_list_app, !sum_list_replicate. rewrite !Z2Nat.id by lia. lia.
  - intros i c Hi.
    destruct (decide (i < Z.to_nat (total `mod` num_bases))%nat) as [Hlt|Hge].
    + rewrite lookup_app_l in Hi by (rewrite length_replicate; lia).
      apply lookup_replicate in Hi as [-> _]. lia.
    + rewrite lookup_app_r in Hi by (rewrite length_replicate; lia).
      apply lookup_replicate in Hi as [-> _]. lia.
Qed.

(** C4. For [0 <= total < num_bases] the distributor returns [total] ones
    followed by [num_bases - total] zeros; for [total = 0] these are
    [num_bases] zeros. *)
Theorem distribute_ones_then_zeros (total num_bases : Z) :
  0 <= total -> total < num_bases ->
  distribute_across_bases total num_bases
  = Ok (replicate (Z.to_nat total) 1
        ++ replicate (Z.to_nat (num_bases - total)) 0)
  /\ (total = 0 ->
      distribute_across_bases total num_bases
      = Ok (replicate (Z.to_nat num_bases) 0)).
Proof.
  intros H0 Hlt.
  assert (distribute_across_bases total num_bases
          = Ok (replicate (Z.to_nat total) 1
                ++ replicate (Z.to_nat (num_bases - total)) 0)) as Heq.
  { unfold distribute_across_bases.
    by destruct (Z.geb_spec total num_bases); [lia|]. }
  split; [done|].
  intros ->. rewrite Heq. simpl. by rewrite Z.sub_0_r.
Qed.

(** For a negative [total] the [else] branch pads with zeros only. *)
Lemma distribute_negative_zeros (total num_bases : Z) :
  1 <= num_bases -> total < 0 ->
  distribute_across_bases total num_bases
  = Ok (replicate (Z.to_nat (num_bases - total)) 0).
Proof.
  intros Hn Hneg. unfold distribute_across_bases.
  destruct (Z.geb_spec total num_bases); [lia|].
  unfold list_mul. by rewrite (Z2Nat.nonpos total) by lia.
Qed.

(** ** Suppression-tactic builder *)

Lemma build_suppression_parts (main_prefix alt_prefix : string)
    (row : gmap string cell) :
  build_suppression main_prefix alt_prefix row
  = if alt_present main_prefix alt_prefix row then
      let* tac := alt_tactic main_prefix alt_prefix row in
      let* th := thresh main_prefix alt_prefix row in
      Ok [ ("main", VDict (main_tactic main_prefix row));
           ("alternative",
            VDict (alt_obj (change_cond main_prefix alt_prefix row) th tac)) ]
    else Ok [ ("main", VDict (main_tactic main_prefix row)) ].
Proof.
  unfold build_suppression, alt_present, alt_tactic, thresh, alt_obj,
    change_cond, main_tactic, none_if_na, field.
  destruct (any _ || any _); [|reflexivity].
  destruct (truthy (safe_str (row_get row (alt_prefix +:+ "select_poi") CNone))).
  - cbn [bind]. destruct (negb _); [|destruct (negb _)];
      (destruct (collapse_integral _) || idtac); reflexivity.
  - destruct (value_lower _); [|reflexivity]. cbn [bind].
    repeat (destruct (String.eqb _ _)); cbn [bind];
      (destruct (negb _); [|destruct (negb _)];
       (destruct (collapse_integral _) || idtac); reflexivity).
Qed.

(** ** Cell normalizer *)

Lemma append_cons (c : ascii) (a b : string) :
  String c a +:+ b = String c (a +:+ b).
Proof. reflexivity. Qed.

Lemma append_nil (b : string) : "" +:+ b = b.
Proof. reflexivity. Qed.

Lemma all_space_app (a b : string) :
  all_space (a +:+ b) = all_space a && all_space b.
Proof.
  induction a as [|c a IH]; [done|].
  rewrite append_cons. simpl. rewrite IH. by rewrite andb_assoc.
Qed.

Lemma lstrip_empty_iff (s : string) :
  lstrip s = "" <-> all_space s = true.
Proof.
  induction s as [|c s IH]; simpl; [done|].
  destruct (is_space c); simpl; [done|]. split; discriminate.
Qed.

Lemma rstrip_empty_iff (s : string) :
  rstrip s = "" <-> all_space s = true.
Proof.
  induction s as [|c s IH]; simpl; [done|].
  destruct (rstrip s) as [|d t] eqn:Hr.
  - assert (all_space s = true) as -> by (by apply IH).
    rewrite andb_true_r. destruct (is_space c); split; done.
  - assert (all_space s = false) as ->.
    { destruct (all_space s) eqn:Ha; [|done].
      assert (String d t = "") by (by apply IH). done. }
    rewrite andb_false_r. split; discriminate.
Qed.

(** [lstrip] removes a run of white space and stops at the first other
    character. *)
Lemma lstrip_decomp (s : string) :
  exists pre, s = pre +:+ lstrip s /\ all_space pre = true
    /\ (lstrip s = ""
        \/ exists c, first_char (lstrip s) = Some c /\ is_space c = false).
Proof.
  induction s as [|c s (pre & Heq & Hpre & Hfirst)]; simpl.
  - exists "". auto.
  - destruct (is_space c) eqn:Hc.
    + exists (String c pre). rewrite append_cons, <- Heq. simpl.
      rewrite Hc, Hpre. auto.
    + exists "". rewrite append_nil. split; [done|]. split; [done|].
      right. simpl. eauto.
Qed.

Lemma rstrip_decomp (s : string) :
  exists post, s = rstrip s +:+ post /\ all_space post = true
    /\ (rstrip s = ""
        \/ exists c, last_char (rstrip s) = Some c /\ is_space c = false).
Proof.
  induction s as [|c s (post & Heq & Hpost & Hlast)]; simpl.
  - exists "". auto.
  - destruct (rstrip s) as [|d t] eqn:Hr.
    + rewrite append_nil in Heq. subst post. destruct (is_space c) eqn:Hc.
      * exists (String c s). rewrite append_nil. simpl.
        rewrite Hc, Hpost. auto.
      * exists s. rewrite append_cons, append_nil.
        repeat split; [done|]. right. simpl. eauto.
    + exists post. rewrite append_cons, <- Heq. repeat split; [done|].
      right. destruct Hlast as [|Hlast]; [done|]. exact Hlast.
Qed.

Lemma rstrip_first_char (s : string) (c : ascii) :
  first_char s = Some c -> is_space c = false ->
  first_char (rstrip s) = Some c.
Proof.
  destruct s as [|d s]; simpl; [done|]. intros [= ->] Hc.
  destruct (rstrip s); [by rewrite Hc|done].
Qed.

Lemma lstrip_fixed (s : string) (c : ascii) :
  first_char s = Some c -> is_space c = false -> lstrip s = s.
Proof.
  destruct s as [|d s]; simpl; [done|]. intros [= ->] ->. done.
Qed.

Lemma rstrip_fixed (s : string) (c : ascii) :
  last_char s = Some c -> is_space c = false -> rstrip s = s.
Proof.
  induction s as [|d s IH]; simpl; [done|].
  destruct s as [|d' s'].
  - intros [= ->] ->. done.
  - intros Hl Hc. rewrite (IH Hl Hc). done.
Qed.

(** A string with no white space at either end is left alone. *)
Lemma strip_trimmed (s : string) : trimmed s -> strip s = s.
Proof.
  intros [(c & Hf & Hc) (d & Hl & Hd)]. unfold strip.
  rewrite (lstrip_fixed s c Hf Hc). by apply (rstrip_fixed s d).
Qed.

Lemma strip_empty_iff (s : string) :
  strip s = "" <-> all_space s = true.
Proof.
  unfold strip. rewrite rstrip_empty_iff.
  destruct (lstrip_decomp s) as (pre & Heq & Hpre & _).
  rewrite Heq at 2. rewrite all_space_app, Hpre. done.
Qed.

(** [strip] cuts a white-space prefix and suffix and leaves a trimmed
    core, unless the whole string is white space. *)
Lemma strip_decomp (s : string) :
  all_space s = false ->
  exists pre post,
    s = pre +:+ strip s +:+ post
    /\ all_space pre = true /\ all_space post = true /\ trimmed (strip s).
Proof.
  intros Hs. unfold strip.
  destruct (lstrip_decomp s) as (pre & Heq & Hpre & Hfirst).
  destruct (rstrip_decomp (lstrip s)) as (post & Heq' & Hpost & Hlast).
  assert (all_space (lstrip s) = false) as Hl.
  { rewrite Heq, all_space_app, Hpre in Hs. exact Hs. }
  destruct Hfirst as [Hfirst|(c & Hf & Hc)].
  { rewrite Hfirst in Hl. done. }
  destruct Hlast as [Hlast|Hlast].
  { apply rstrip_empty_iff in Hlast. congruence. }
  exists pre, post. repeat split; try done.
  - rewrite <- Heq'. exact Heq.
  - exists c. split; [|done]. by apply rstrip_first_char.
Qed.

(** [safe_str] returns [None] or a non-empty text, so its truth value
    tells the two apart. *)
Lemma safe_str_cases (val : cell) :
  (safe_str val = CNone /\ truthy (safe_str val) = false)
  \/ (exists s, safe_str val = CStr s /\ s <> ""
                /\ truthy (safe_str val) = true).
Proof.
  unfold safe_str. destruct (isna val); [by left|].
  destruct (String.eqb_spec (strip (py_str val)) "") as [->|Hne]; simpl.
  - by left.
  - right. eexists. split; [done|]. split; [done|].
    simpl. by destruct (String.eqb_spec (strip (py_str val)) "").
Qed.

Lemma no_space_trimmed (s : string) :
  no_space s = true -> s <> "" -> trimmed s.
Proof.
  intros Hs Hne. split.
  - destruct s as [|c s]; [done|]. simpl in Hs.
    apply andb_true_iff in Hs as [Hc _]. exists c.
    split; [done|]. by apply negb_true_iff.
  - induction s as [|c s IH]; [done|]. simpl in Hs.
    apply andb_true_iff in Hs as [Hc Hs]. destruct s as [|d s].
    + exists c. split; [done|]. by apply negb_true_iff.
    + destruct (IH Hs ltac:(done)) as (e & He & Hsp). by exists e.
Qed.

Lemma pretty_N_char_no_space (d : N) : is_space (pretty_N_char d) = false.
Proof. unfold pretty_N_char. by repeat case_match. Qed.

(** The decimal digits that [str] writes in front of [s] bring no white
    space, and the text stays non-empty. *)
Lemma pretty_N_go_no_space (x : N) (s : string) :
  no_space s = true -> no_space (pretty_N_go x s) = true.
Proof.
  revert s. induction (N.lt_wf_0 x) as [x _ IH]; intros s Hs.
  assert (x = 0 \/ 0 < x)%N as [->|Hpos] by lia.
  - by rewrite pretty_N_go_0.
  - rewrite pretty_N_go_step by done. apply IH; [by apply N.div_lt|].
    simpl. by rewrite pretty_N_char_no_space, Hs.
Qed.

Lemma pretty_N_go_nonempty (x : N) (s : string) :
  s <> "" -> pretty_N_go x s <> "".
Proof.
  revert s. induction (N.lt_wf_0 x) as [x _ IH]; intros s Hs.
  assert (x = 0 \/ 0 < x)%N as [->|Hpos] by lia.
  - by rewrite pretty_N_go_0.
  - rewrite pretty_N_go_step by done. apply IH; [by apply N.div_lt|done].
Qed.

Lemma pretty_N_trimmed (x : N) :
  no_space (pretty x) = true /\ pretty x <> "".
Proof.
  unfold pretty, pretty_N. case_decide as Hx; [done|]. split.
  - by apply pretty_N_go_no_space.
  - rewrite pretty_N_go_step by lia. by apply pretty_N_go_nonempty.
Qed.

(** The decimal text of an integer is already trimmed. *)
Lemma pretty_Z_trimmed (z : Z) : trimmed (pretty z).
Proof.
  destruct z as [|p|p]; unfold pretty, pretty_Z.
  - by apply no_space_trimmed.
  - destruct (pretty_N_trimmed (N.pos p)). by apply no_space_trimmed.
  - destruct (pretty_N_trimmed (N.pos p)) as [Hs Hne].
    apply no_space_trimmed; [|done].
    rewrite append_cons, append_nil. simpl. exact Hs.
Qed.

(** C8. The normalizer is a total function of the cell alone: a missing
    or NaN cell, and a cell whose text is all white space, give [None];
    any other cell gives its text without the white space at both ends
    (the text is a white-space prefix, the result, a white-space suffix,
    and the result neither starts nor ends with white space).  Text that
    is already trimmed and the decimal text of an integer come back
    unchanged. *)
Theorem safe_str_normalizes (val : cell) :
  (isna val = true -> safe_str val = CNone)
  /\ (isna val = false -> all_space (py_str val) = true ->
      safe_str val = CNone)
  /\ (isna val = false -> all_space (py_str val) = false ->
      exists pre s post,
        py_str val = pre +:+ s +:+ post
        /\ all_space pre = true /\ all_space post = true
        /\ trimmed s /\ safe_str val = CStr s)
  /\ (forall s, val = CStr s -> trimmed s -> safe_str val = CStr s)
  /\ (forall z, val = CInt z -> safe_str val = CStr (pretty z)).
Proof.
  assert (forall v, isna v = false -> trimmed (py_str v) ->
                    safe_str v = CStr (py_str v)) as Hfix.
  { intros v Hna Ht. unfold safe_str. rewrite Hna, (strip_trimmed _ Ht).
    destruct (String.eqb_spec (py_str v) "") as [Hempty|]; [|done].
    destruct Ht as [(c & Hf & _) _]. rewrite Hempty in Hf. done. }
  split; [|split; [|split; [|split]]].
  - intros Hna. unfold safe_str. by rewrite Hna.
  - intros Hna Hsp. unfold safe_str. rewrite Hna.
    apply strip_empty_iff in Hsp. by rewrite Hsp.
  - intros Hna Hsp. destruct (strip_decomp _ Hsp) as (pre & post & H).
    destruct H as (Heq & Hpre & Hpost & Ht).
    exists pre, (strip (py_str val)), post. repeat split; try done;
      try apply Ht.
    unfold safe_str. rewrite Hna.
    destruct (String.eqb_spec (strip (py_str val)) "") as [Hempty|]; [|done].
    apply strip_empty_iff in Hempty. congruence.
  - intros s -> Ht. by apply Hfix.
  - intros z ->. apply Hfix; [done|]. apply pretty_Z_trimmed.
Qed.

Example safe_str_blank : safe_str (CStr "   ") = CNone.
Proof. reflexivity. Qed.
Example safe_str_abc : safe_str (CStr "  abc ") = CStr "abc".
Proof. reflexivity. Qed.
Example safe_str_3 : safe_str (CInt 3) = CStr "3".
Proof. reflexivity. Qed.
Example safe_str_nan : safe_str (CFloat S754_nan) = CNone.
Proof. reflexivity. Qed.

Lemma safe_str_truthy (val : cell) (s : string) :
  safe_str val = CStr s -> truthy (safe_str val) = true.
Proof.
  intros Hs. destruct (safe_str_cases val) as [[H0 _]|(s' & _ & _ & Ht)];
    [congruence|done].
Qed.

(** ** Suppression-tactic builder: the parts *)

Ltac case_safe_str c :=
  let s := fresh "s" in
  let Hs := fresh "Hs" in
  let Hne := fresh "Hne" in
  let Ht := fresh "Ht" in
  destruct (safe_str_cases c) as [[Hs Ht]|(s & Hs & Hne & Ht)];
  rewrite ?Ht, ?Hs.

Lemma main_tactic_get_select (main_prefix : string) (row : gmap string cell) :
  dict_get_default "select_poi" (VStr "") (main_tactic main_prefix row)
  = VStr (main_select main_prefix row).
Proof.
  unfold main_tactic, main_select.
  case_safe_str (field row main_prefix "select_poi");
    case_safe_str (field row main_prefix "track_poi");
    case_safe_str (field row main_prefix "suppress"); reflexivity.
Qed.

Lemma main_tactic_blank (main_prefix : string) (row : gmap string cell) :
  safe_str (field row main_prefix "select_poi") = CNone ->
  safe_str (field row main_prefix "track_poi") = CNone ->
  safe_str (field row main_prefix "suppress") = CNone ->
  main_tactic main_prefix row = [].
Proof. intros H1 H2 H3. unfold main_tactic. by rewrite H1, H2, H3. Qed.

(** The alternative tactic never raises: [main["select_poi"]] is text. *)
Lemma alt_tactic_closed_form (main_prefix alt_prefix : string)
    (row : gmap string cell) :
  alt_tactic main_prefix alt_prefix row
  = Ok [ ("select_poi",
          Scalar
            (if truthy (safe_str (field row alt_prefix "select_poi"))
             then safe_str (field row alt_prefix "select_poi")
             else if String.eqb (lower (main_select main_prefix row))
                       "vegetation"
             then CStr "water" else CStr "vegetation"));
         ("track_poi",
          Scalar (py_or (safe_str (field row alt_prefix "track_poi"))
                        (CStr "follow_firefront")));
         ("suppress",
          Scalar (py_or (safe_str (field row alt_prefix "suppress"))
                        (CStr "direct"))) ].
Proof.
  unfold alt_tactic. rewrite main_tactic_get_select.
  destruct (truthy (safe_str (field row alt_prefix "select_poi")));
    [reflexivity|].
  cbn [value_lower VStr bind].
  destruct (String.eqb (lower (main_select main_prefix row)) "vegetation");
    [reflexivity|].
  destruct (String.eqb (lower (main_select main_prefix row)) "water");
    reflexivity.
Qed.

Lemma alt_obj_get_tactic (cond th : cell) (tac : dict) :
  dict_get "alternative_tactic" (alt_obj cond th tac) = Some (VDict tac).
Proof. unfold alt_obj. destruct (truthy cond), th; reflexivity. Qed.

Lemma alt_obj_get_condition (cond th : cell) (tac : dict) :
  dict_get "change_condition" (alt_obj cond th tac)
  = if truthy cond then Some (Scalar cond) else None.
Proof. unfold alt_obj. destruct (truthy cond), th; reflexivity. Qed.

Lemma alt_obj_get_threshold (cond th : cell) (tac : dict) :
  dict_get "threshold" (alt_obj cond th tac)
  = match th with CNone => None | _ => Some (Scalar th) end.
Proof. unfold alt_obj. destruct (truthy cond), th; reflexivity. Qed.

(** Without the flag the block is [{"main": main}]. *)
Lemma build_suppression_main_only (main_prefix alt_prefix : string)
    (row : gmap string cell) :
  alt_present main_prefix alt_prefix row = false ->
  build_suppression main_prefix alt_prefix row
  = Ok [ ("main", VDict (main_tactic main_prefix row)) ].
Proof. intros H. by rewrite build_suppression_parts, H. Qed.

(** A returned block has the key ["main"], and the key ["alternative"]
    exactly when the flag is set. *)
Lemma build_suppression_inv (main_prefix alt_prefix : string)
    (row : gmap string cell) (t : dict) :
  build_suppression main_prefix alt_prefix row = Ok t ->
  dict_get "main" t = Some (VDict (main_tactic main_prefix row))
  /\ (alt_present main_prefix alt_prefix row = false ->
      t = [ ("main", VDict (main_tactic main_prefix row)) ])
  /\ (alt_present main_prefix alt_prefix row = true ->
      exists tac th,
        alt_tactic main_prefix alt_prefix row = Ok tac
        /\ thresh main_prefix alt_prefix row = Ok th
        /\ t = [ ("main", VDict (main_tactic main_prefix row));
                 ("alternative",
                  VDict (alt_obj (change_cond main_prefix alt_prefix row)
                           th tac)) ]).
Proof.
  rewrite build_suppression_parts, alt_tactic_closed_form.
  destruct (alt_present main_prefix alt_prefix row).
  - cbn [bind]. destruct (thresh main_prefix alt_prefix row) as [th|e];
      cbn [bind]; [|done].
    intros [= <-]. split; [done|]. split; [done|]. intros _. eauto.
  - intros [= <-]. split; [done|]. split; [done|]. done.
Qed.

Lemma build_suppression_alternative (main_prefix alt_prefix : string)
    (row : gmap string cell) (t a : dict) :
  build_suppression main_prefix alt_prefix row = Ok t ->
  dict_get "alternative" t = Some (VDict a) ->
  alt_present main_prefix alt_prefix row = true
  /\ exists tac th,
       alt_tactic main_prefix alt_prefix row = Ok tac
       /\ thresh main_prefix alt_prefix row = Ok th
       /\ a = alt_obj (change_cond main_prefix alt_prefix row) th tac.
Proof.
  intros Hb Ha. apply build_suppression_inv in Hb as (_ & Hno & Hyes).
  destruct (alt_present main_prefix alt_prefix row).
  - split; [done|]. destruct (Hyes eq_refl) as (tac & th & H1 & H2 & ->).
    simpl in Ha. injection Ha as <-. eauto.
  - rewrite (Hno eq_refl) in Ha. done.
Qed.

(** ** Integer collapse of a threshold *)

(** [is_integer] accepts exactly the floats that equal an integer, and
    [int] then returns that integer. *)
Lemma float_integral_exact (f : spec_float) :
  float_is_integer f = true ->
  exists z, float_to_int f = Ok z /\ forall z', float_exact f z' <-> z' = z.
Proof.
  destruct f as [s|s| |s m e]; simpl; try done.
  - intros _. exists 0. done.
  - destruct (Z.leb_spec 0 e) as [He|He]; simpl.
    + intros _. eexists. split; [done|]. intros z'.
      rewrite (Z.max_l 0 (- e)), (Z.max_r 0 e) by lia.
      rewrite Z.pow_0_r. destruct s; lia.
    + intros Hm. apply Z.eqb_eq in Hm. eexists. split; [done|]. intros z'.
      rewrite (Z.max_r 0 (- e)), (Z.max_l 0 e) by lia.
      rewrite Z.pow_0_r.
      assert (0 < 2 ^ (- e)) as Hd by (apply Z.pow_pos_nonneg; lia).
      pose proof (Z.div_mod (Z.pos m) (2 ^ (- e)) ltac:(lia)) as Hdm.
      rewrite Hm in Hdm. destruct s; nia.
Qed.

Lemma float_fractional (f : spec_float) :
  float_is_integer f = false -> forall z, ~ float_exact f z.
Proof.
  destruct f as [s|s| |s m e]; simpl; try done; try (by intros _ z []).
  destruct (Z.leb_spec 0 e) as [He|He]; simpl; [done|].
  intros Hm z. apply Z.eqb_neq in Hm.
  rewrite (Z.max_r 0 (- e)), (Z.max_l 0 e) by lia.
  rewrite Z.pow_0_r. intros Hz. apply Hm.
  assert (0 < 2 ^ (- e)) as Hd by (apply Z.pow_pos_nonneg; lia).
  destruct s.
  - replace (Z.pos m) with ((- z) * 2 ^ (- e)) by lia.
    apply Z.mod_mul. lia.
  - replace (Z.pos m) with (z * 2 ^ (- e)) by lia.
    apply Z.mod_mul. lia.
Qed.

Lemma collapse_integral_collapsed (val out : cell) :
  collapse_integral val = Ok out -> collapsed val out.
Proof.
  unfold collapse_integral. destruct val as [|s|z|f|b]; simpl.
  - by intros [= <-].
  - by intros [= <-].
  - destruct (int_fits_float z); simpl; [|done]. by intros [= <-].
  - destruct (float_is_integer f) eqn:Hi.
    + destruct (float_integral_exact f Hi) as (z & -> & Hz). simpl.
      intros [= <-]. split.
      * intros z' Hz'. apply Hz in Hz'. by subst.
      * intros Hno. destruct (Hno z). by apply Hz.
    + intros [= <-]. split; [|done].
      intros z Hz. by destruct (float_fractional f Hi z).
  - by intros [= <-].
Qed.

Lemma collapse_integral_returns (val : cell) :
  threshold_in_range val -> exists out, collapse_integral val = Ok out.
Proof.
  unfold collapse_integral, threshold_in_range.
  destruct val as [|s|z|f|b]; simpl; intros Hr; eauto.
  - rewrite (Hr z eq_refl). simpl. eauto.
  - destruct (float_is_integer f) eqn:Hi; [|eauto].
    destruct (float_integral_exact f Hi) as (z & -> & _). simpl. eauto.
Qed.

Lemma collapse_integral_present (val out : cell) :
  isna val = false -> collapse_integral val = Ok out -> out <> CNone.
Proof.
  unfold collapse_integral. destruct val as [|s|z|f|b]; simpl; try done.
  - by intros _ [= <-].
  - intros _. destruct (int_fits_float z); simpl; [|done]. by intros [= <-].
  - intros _. destruct (float_is_integer f) eqn:Hi.
    + destruct (float_integral_exact f Hi) as (z & -> & _). simpl.
      by intros [= <-].
    + by intros [= <-].
  - by intros _ [= <-].
Qed.

(** The variable [thresh]: the alternative-prefixed cell when it is there,
    else the main-prefixed one, else [None]. *)
Lemma thresh_inv (main_prefix alt_prefix : string) (row : gmap string cell)
    (th : cell) :
  thresh main_prefix alt_prefix row = Ok th ->
  (isna (field row alt_prefix "threshold") = false ->
   collapsed (field row alt_prefix "threshold") th /\ th <> CNone)
  /\ (isna (field row alt_prefix "threshold") = true ->
      isna (field row main_prefix "threshold") = false ->
      collapsed (field row main_prefix "threshold") th /\ th <> CNone)
  /\ (isna (field row alt_prefix "threshold") = true ->
      isna (field row main_prefix "threshold") = true ->
      th = CNone).
Proof.
  unfold thresh.
  destruct (isna (field row alt_prefix "threshold")) eqn:Ha; simpl.
  - destruct (isna (field row main_prefix "threshold")) eqn:Hm; simpl.
    + intros [= <-]. done.
    + intros Hc. repeat split; try done.
      * by apply collapse_integral_collapsed.
      * by apply (collapse_integral_present _ _ Hm).
  - intros Hc. repeat split; try done.
    + by apply collapse_integral_collapsed.
    + by apply (collapse_integral_present _ _ Ha).
Qed.

Lemma thresh_returns (main_prefix alt_prefix : string)
    (row : gmap string cell) :
  threshold_in_range (field row alt_prefix "threshold") ->
  threshold_in_range (field row main_prefix "threshold") ->
  exists th, thresh main_prefix alt_prefix row = Ok th.
Proof.
  intros Ha Hm. unfold thresh.
  destruct (negb _); [by apply collapse_integral_returns|].
  destruct (negb _); [by apply collapse_integral_returns|]. eauto.
Qed.

(** The builder returns a block unless a threshold is an integer beyond
    the range of a float. *)
Lemma build_suppression_returns (main_prefix alt_prefix : string)
    (row : gmap string cell) :
  threshold_in_range (field row alt_prefix "threshold") ->
  threshold_in_range (field row main_prefix "threshold") ->
  exists t, build_suppression main_prefix alt_prefix row = Ok t.
Proof.
  intros Ha Hm. rewrite build_suppression_parts, alt_tactic_closed_form.
  destruct (alt_present main_prefix alt_prefix row); [|eauto].
  destruct (thresh_returns main_prefix alt_prefix row Ha Hm) as [th ->].
  simpl. eauto.
Qed.

(** ** Suppression-tactic builder: the claims *)

Lemma main_select_lookup (main_prefix : string) (row : gmap string cell) :
  (forall s, dict_get "select_poi" (main_tactic main_prefix row)
             = Some (VStr s) -> main_select main_prefix row = s)
  /\ (dict_get "select_poi" (main_tactic main_prefix row) = None ->
      main_select main_prefix row = "").
Proof.
  unfold main_tactic, main_select.
  case_safe_str (field row main_prefix "select_poi");
    case_safe_str (field row main_prefix "track_poi");
    case_safe_str (field row main_prefix "suppress");
    (split; [intros s'; simpl; by intros [= <-]|by simpl]).
Qed.

(** The flag of the code implies the test of the specification. *)
Lemma alt_present_sound (main_prefix alt_prefix : string)
    (row : gmap string cell) :
  alt_present main_prefix alt_prefix row = true ->
  alt_present_spec main_prefix alt_prefix row = true.
Proof.
  unfold alt_present, alt_present_spec, any, none_if_na. simpl.
  case_safe_str (field row alt_prefix "select_poi");
    case_safe_str (field row alt_prefix "track_poi");
    case_safe_str (field row alt_prefix "suppress");
    case_safe_str (field row alt_prefix "change_condition");
    case_safe_str (field row main_prefix "change_condition"); simpl;
    try done;
    destruct (isna (field row alt_prefix "threshold"));
    destruct (isna (field row main_prefix "threshold")); simpl; done.
Qed.

(** The two agree as long as no threshold that is present counts as
    false. *)
Lemma alt_present_complete (main_prefix alt_prefix : string)
    (row : gmap string cell) :
  (isna (field row alt_prefix "threshold") = false ->
   truthy (field row alt_prefix "threshold") = true) ->
  (isna (field row main_prefix "threshold") = false ->
   truthy (field row main_prefix "threshold") = true) ->
  alt_present_spec main_prefix alt_prefix row = true ->
  alt_present main_prefix alt_prefix row = true.
Proof.
  unfold alt_present, alt_present_spec, any, none_if_na. simpl.
  case_safe_str (field row alt_prefix "select_poi");
    case_safe_str (field row alt_prefix "track_poi");
    case_safe_str (field row alt_prefix "suppress");
    case_safe_str (field row alt_prefix "change_condition");
    case_safe_str (field row main_prefix "change_condition"); simpl;
    try done;
    destruct (isna (field row alt_prefix "threshold"));
    destruct (isna (field row main_prefix "threshold")); simpl;
    intros Ha Hm; rewrite ?Ha, ?Hm by done; simpl; try done;
    rewrite ?orb_true_r; done.
Qed.

(** C1. On the row whose only filled field is the alternative-prefixed
    [select_poi], the block has the key ["alternative"], and the
    alternative object has neither ["change_condition"] nor
    ["threshold"]: it holds ["alternative_tactic"] alone. *)
Theorem alternative_without_condition_or_threshold :
  build_suppression "g1_" "g1a_" row_alt_select_only
  = Ok [ ("main", VDict []);
         ("alternative",
          VDict [ ("alternative_tactic",
                   VDict [ ("select_poi", VStr "water");
                           ("track_poi", VStr "follow_firefront");
                           ("suppress", VStr "direct") ]) ]) ]
  /\ safe_str (field row_alt_select_only "g1a_" "change_condition") = CNone
  /\ safe_str (field row_alt_select_only "g1_" "change_condition") = CNone
  /\ isna (field row_alt_select_only "g1a_" "threshold") = true
  /\ isna (field row_alt_select_only "g1_" "threshold") = true.
Proof. repeat split; vm_compute; reflexivity. Qed.

(** C2. On the row whose only filled field is the alternative-prefixed
    threshold, with the number zero, the test of the specification holds
    (the threshold is present) and the block has only the key ["main"];
    the same with the float [0.0]. *)
Theorem present_zero_threshold_gives_main_only :
  isna (field row_alt_threshold_zero "g1a_" "threshold") = false
  /\ alt_present_spec "g1_" "g1a_" row_alt_threshold_zero = true
  /\ build_suppression "g1_" "g1a_" row_alt_threshold_zero
     = Ok [ ("main", VDict []) ]
  /\ isna (field row_alt_threshold_zero_float "g1a_" "threshold") = false
  /\ alt_present_spec "g1_" "g1a_" row_alt_threshold_zero_float = true
  /\ build_suppression "g1_" "g1a_" row_alt_threshold_zero_float
     = Ok [ ("main", VDict []) ].
Proof. repeat split; vm_compute; reflexivity. Qed.

(** Once a change condition is there, the same zero threshold is written
    into the alternative object. *)
Example zero_threshold_kept_with_condition :
  build_suppression "g1_" "g1a_" row_condition_zero_threshold
  = Ok [ ("main", VDict []);
         ("alternative",
          VDict [ ("change_condition", VStr "wind_shift");
                  ("threshold", VInt 0);
                  ("alternative_tactic",
                   VDict [ ("select_poi", VStr "vegetation");
                           ("track_poi", VStr "follow_firefront");
                           ("suppress", VStr "direct") ]) ]) ].
Proof. vm_compute. reflexivity. Qed.

Example lower_mixed_case : lower "VeGeTaTiOn" = "vegetation".
Proof. reflexivity. Qed.

(** C5. In an emitted alternative tactic: [select_poi] is the
    alternative-prefixed value when there is one; otherwise it is
    ["water"] when the lower-cased [select_poi] of the main tactic is
    ["vegetation"], and ["vegetation"] when that is ["water"], anything
    else, or absent.  [track_poi] and [suppress] are the
    alternative-prefixed values when there are some, and otherwise
    ["follow_firefront"] and ["direct"]. *)
Theorem alternative_tactic_defaults (main_prefix alt_prefix : string)
    (row : gmap string cell) (t a : dict) :
  build_suppression main_prefix alt_prefix row = Ok t ->
  dict_get "alternative" t = Some (VDict a) ->
  exists m tac,
    dict_get "main" t = Some (VDict m)
    /\ dict_get "alternative_tactic" a = Some (VDict tac)
    /\ (forall s, safe_str (field row alt_prefix "select_poi") = CStr s ->
          dict_get "select_poi" tac = Some (VStr s))
    /\ (safe_str (field row alt_prefix "select_poi") = CNone ->
          (forall s, dict_get "select_poi" m = Some (VStr s) ->
             lower s = "vegetation" ->
             dict_get "select_poi" tac = Some (VStr "water"))
          /\ (forall s, dict_get "select_poi" m = Some (VStr s) ->
                lower s = "water" ->
                dict_get "select_poi" tac = Some (VStr "vegetation"))
          /\ (forall s, dict_get "select_poi" m = Some (VStr s) ->
                lower s <> "vegetation" -> lower s <> "water" ->
                dict_get "select_poi" tac = Some (VStr "vegetation"))
          /\ (dict_get "select_poi" m = None ->
                dict_get "select_poi" tac = Some (VStr "vegetation")))
    /\ (forall s, safe_str (field row alt_prefix "track_poi") = CStr s ->
          dict_get "track_poi" tac = Some (VStr s))
    /\ (safe_str (field row alt_prefix "track_poi") = CNone ->
          dict_get "track_poi" tac = Some (VStr "follow_firefront"))
    /\ (forall s, safe_str (field row alt_prefix "suppress") = CStr s ->
          dict_get "suppress" tac = Some (VStr s))
    /\ (safe_str (field row alt_prefix "suppress") = CNone ->
          dict_get "suppress" tac = Some (VStr "direct")).
Proof.
  intros Hb Ha.
  destruct (build_suppression_alternative _ _ _ _ _ Hb Ha)
    as (_ & tac & th & Htac & _ & ->).
  apply build_suppression_inv in Hb as (Hmain & _).
  rewrite alt_tactic_closed_form in Htac. injection Htac as <-.
  destruct (main_select_lookup main_prefix row) as [Hsome Hnone].
  eexists _, _. split; [exact Hmain|]. split; [apply alt_obj_get_tactic|].
  split; [|split; [|split; [|split; [|split]]]].
  - intros s Hs. by rewrite (safe_str_truthy _ _ Hs), Hs.
  - intros Hs. rewrite Hs. simpl. repeat split.
    + intros s Hm Hl. rewrite (Hsome s Hm), Hl. done.
    + intros s Hm Hl. rewrite (Hsome s Hm), Hl. done.
    + intros s Hm Hv Hw. rewrite (Hsome s Hm).
      by destruct (String.eqb_spec (lower s) "vegetation").
    + intros Hm. rewrite (Hnone Hm). done.
  - intros s Hs. unfold py_or. by rewrite (safe_str_truthy _ _ Hs), Hs.
  - intros Hs. by rewrite Hs.
  - intros s Hs. unfold py_or. by rewrite (safe_str_truthy _ _ Hs), Hs.
  - intros Hs. by rewrite Hs.
Qed.

(** C6. In an emitted alternative object: [change_condition] is the
    alternative-prefixed value when that is not [None], else the
    main-prefixed value, and the key is absent when both are [None];
    [threshold] is the collapsed alternative-prefixed cell when that is
    present, else the collapsed main-prefixed cell when that is present,
    and the key is absent when neither is.  Collapsing turns a float that
    is exactly an integer into that integer and leaves any other float
    and any text as it is. *)
Theorem alternative_condition_and_threshold (main_prefix alt_prefix : string)
    (row : gmap string cell) (t a : dict) :
  build_suppression main_prefix alt_prefix row = Ok t ->
  dict_get "alternative" t = Some (VDict a) ->
  (forall s, safe_str (field row alt_prefix "change_condition") = CStr s ->
     dict_get "change_condition" a = Some (VStr s))
  /\ (safe_str (field row alt_prefix "change_condition") = CNone ->
      forall s, safe_str (field row main_prefix "change_condition") = CStr s ->
      dict_get "change_condition" a = Some (VStr s))
  /\ (safe_str (field row alt_prefix "change_condition") = CNone ->
      safe_str (field row main_prefix "change_condition") = CNone ->
      dict_get "change_condition" a = None)
  /\ (isna (field row alt_prefix "threshold") = false ->
      exists out, dict_get "threshold" a = Some (Scalar out)
                  /\ collapsed (field row alt_prefix "threshold") out)
  /\ (isna (field row alt_prefix "threshold") = true ->
      isna (field row main_prefix "threshold") = false ->
      exists out, dict_get "threshold" a = Some (Scalar out)
                  /\ collapsed (field row main_prefix "threshold") out)
  /\ (isna (field row alt_prefix "threshold") = true ->
      isna (field row main_prefix "threshold") = true ->
      dict_get "threshold" a = None).
Proof.
  intros Hb Ha.
  destruct (build_suppression_alternative _ _ _ _ _ Hb Ha)
    as (_ & tac & th & _ & Hth & ->).
  apply thresh_inv in Hth as (Halt & Hmain & Hnone).
  rewrite alt_obj_get_condition, alt_obj_get_threshold.
  unfold change_cond, py_or.
  split; [|split; [|split; [|split; [|split]]]].
  - intros s Hs. by rewrite !(safe_str_truthy _ _ Hs), Hs.
  - intros Hs s Hm. rewrite Hs. simpl.
    by rewrite (safe_str_truthy _ _ Hm), Hm.
  - intros Hs Hm. rewrite Hs. simpl. by rewrite Hm.
  - intros Hna. destruct (Halt Hna) as [Hc Hne]. exists th.
    split; [|done]. by destruct th.
  - intros Hna Hnm. destruct (Hmain Hna Hnm) as [Hc Hne]. exists th.
    split; [|done]. by destruct th.
  - intros Hna Hnm. by rewrite (Hnone Hna Hnm).
Qed.

(** C10. A returned block always has the key ["main"], and the builder
    returns a block unless a threshold is an integer too large for a
    float.  When the three main-prefixed fields are blank, the value of
    ["main"] is the empty object; the row of scenario S1 with five
    aircraft and no tactic field yields a group entry with such a
    block. *)
Theorem tactic_block_has_main (main_prefix alt_prefix : string)
    (row : gmap string cell) :
  (forall t, build_suppression main_prefix alt_prefix row = Ok t ->
     exists m, dict_get "main" t = Some (VDict m)
       /\ (safe_str (field row main_prefix "select_poi") = CNone ->
           safe_str (field row main_prefix "track_poi") = CNone ->
           safe_str (field row main_prefix "suppress") = CNone ->
           m = []))
  /\ (threshold_in_range (field row alt_prefix "threshold") ->
      threshold_in_range (field row main_prefix "threshold") ->
      exists t, build_suppression main_prefix alt_prefix row = Ok t)
  /\ process_row [] row_no_tactic
     = Ok [ VList [ group_entry [3; 2] [ ("main", VDict []) ] ] ].
Proof.
  split; [|split].
  - intros t Hb. apply build_suppression_inv in Hb as (Hmain & _).
    eexists. split; [exact Hmain|]. apply main_tactic_blank.
  - apply build_suppression_returns.
  - vm_compute. reflexivity.
Qed.

(** ** Row loop *)

(** Closed form of the [total < num_bases] branch. *)
Lemma distribute_lt (total num_bases : Z) :
  total < num_bases ->
  distribute_across_bases total num_bases
  = Ok (replicate (Z.to_nat total) 1
        ++ replicate (Z.to_nat (num_bases - total)) 0).
Proof.
  intros Hlt. unfold distribute_across_bases.
  by destruct (Z.geb_spec total num_bases); [lia|].
Qed.

(** The contract of the distributor under [total >= 0]. *)
Lemma distribute_contract (total num_bases : Z) :
  1 <= num_bases -> 0 <= total ->
  exists counts,
    distribute_across_bases total num_bases = Ok counts
    /\ Z.of_nat (length counts) = num_bases
    /\ sum_list counts = total.
Proof.
  intros Hn H0. destruct (Z.lt_ge_cases total num_bases) as [Hlt|Hge].
  - eexists. split; [by apply distribute_lt|].
    rewrite length_app, !length_replicate, sum_list_app, !sum_list_replicate.
    lia.
  - eexists. split; [by apply distribute_ge|].
    pose proof (Z.mod_pos_bound total num_bases ltac:(lia)) as Hr.
    pose proof (Z.div_mod total num_bases ltac:(lia)) as Hdm.
    rewrite length_app, !length_replicate, sum_list_app, !sum_list_replicate.
    rewrite !Z2Nat.id by lia. lia.
Qed.

(** What one group adds to [scenario_entries]. *)
Lemma add_group_inv (col main_prefix alt_prefix : string)
    (row : gmap string cell) (es es' : list value) :
  add_group col main_prefix alt_prefix row es = Ok es' ->
  exists c, group_count row col = Ok c
    /\ (c <= 0 -> es' = es)
    /\ (0 < c -> exists apb sup,
          distribute_across_bases c NUM_BASES = Ok apb
          /\ build_suppression main_prefix alt_prefix row = Ok sup
          /\ es' = es ++ [group_entry apb sup]).
Proof.
  unfold add_group. destruct (group_count row col) as [c|e]; simpl; [|done].
  intros H. exists c. split; [done|].
  destruct (Z.gtb_spec c 0) as [Hpos|Hle].
  - destruct (distribute_across_bases c NUM_BASES) as [apb|]; simpl in H;
      [|done].
    destruct (build_suppression main_prefix alt_prefix row) as [sup|];
      simpl in H; [|done].
    injection H as <-. split; [lia|]. intros _. eauto.
  - injection H as <-. split; [done|lia].
Qed.

Lemma add_group_returns (col main_prefix alt_prefix : string)
    (row : gmap string cell) (es : list value) (c : Z) :
  group_count row col = Ok c ->
  (0 < c -> exists sup, build_suppression main_prefix alt_prefix row = Ok sup) ->
  exists es', add_group col main_prefix alt_prefix row es = Ok es'.
Proof.
  intros Hc Hsup. unfold add_group. rewrite Hc. simpl.
  destruct (Z.gtb_spec c 0) as [Hpos|Hle]; [|eauto].
  destruct (distribute_contract c NUM_BASES) as (apb & -> & _);
    [done|lia|].
  destruct (Hsup ltac:(lia)) as [sup ->]. simpl. eauto.
Qed.

Lemma process_row_blank (scenarios : list value) (row : gmap string cell) :
  safe_str (row_get row "scenario" CNone) = CNone ->
  process_row scenarios row = Ok scenarios.
Proof.
  unfold safe_str, process_row.
  destruct (isna (row_get row "scenario" CNone)); [done|]. simpl.
  by destruct (String.eqb (strip (py_str (row_get row "scenario" CNone))) "").
Qed.

Lemma process_row_nonblank (scenarios : list value) (row : gmap string cell) :
  safe_str (row_get row "scenario" CNone) <> CNone ->
  process_row scenarios row
  = let* es1 := add_group "first group" "g1_" "g1a_" row [] in
    let* es2 := add_group "second group" "g2_" "g2a_" row es1 in
    match es2 with
    | [] => Ok scenarios
    | _ :: _ => Ok (scenarios ++ [VList es2])
    end.
Proof.
  unfold safe_str, process_row.
  destruct (isna (row_get row "scenario" CNone)); [done|]. simpl.
  by destruct (String.eqb (strip (py_str (row_get row "scenario" CNone))) "").
Qed.

(** A cell that is there is read whatever the default of [row.get]. *)
Lemma row_get_present (row : gmap string cell) (k : string) (dflt : cell) :
  isna (row_get row k CNone) = false ->
  row_get row k dflt = row_get row k CNone.
Proof. unfold row_get. by destruct (row !! k). Qed.

Lemma group_count_present (row : gmap string cell) (col : string) :
  isna (row_get row col CNone) = false ->
  group_count row col = py_int (row_get row col CNone).
Proof.
  intros Hna. unfold group_count. rewrite Hna. simpl.
  by rewrite (row_get_present row col (CInt 0)).
Qed.

(** [int] of a finite float: the sign is kept and the magnitude is
    rounded down. *)
Lemma float_to_int_truncates (sign : bool) (m : positive) (e : Z) :
  exists z,
    float_to_int (S754_finite sign m e) = Ok z
    /\ (if sign then z <= 0 else 0 <= z)
    /\ Z.abs z * 2 ^ Z.max 0 (- e) <= Z.pos m * 2 ^ Z.max 0 e
    /\ Z.pos m * 2 ^ Z.max 0 e < (Z.abs z + 1) * 2 ^ Z.max 0 (- e).
Proof.
  simpl. eexists. split; [done|].
  destruct (Z.leb_spec 0 e) as [He|He].
  - rewrite (Z.max_l 0 (- e)), (Z.max_r 0 e), Z.pow_0_r by lia.
    assert (0 < 2 ^ e) by (apply Z.pow_pos_nonneg; lia).
    destruct sign; split; nia.
  - rewrite (Z.max_r 0 (- e)), (Z.max_l 0 e), Z.pow_0_r by lia.
    assert (0 < 2 ^ (- e)) as Hd by (apply Z.pow_pos_nonneg; lia).
    pose proof (Z.div_mod (Z.pos m) (2 ^ (- e)) ltac:(lia)) as Hdm.
    pose proof (Z.mod_pos_bound (Z.pos m) (2 ^ (- e)) Hd) as Hr.
    assert (0 <= Z.pos m `div` 2 ^ (- e)) as Hq by (apply Z.div_pos; lia).
    destruct sign; split; nia.
Qed.

(** The count of a group, cell by cell. *)
Lemma group_count_reads_cell (row : gmap string cell) (col : string) :
  (isna (row_get row col CNone) = true -> group_count row col = Ok 0)
  /\ (forall z, row_get row col CNone = CInt z -> group_count row col = Ok z)
  /\ (forall b, row_get row col CNone = CBool b ->
        group_count row col = Ok (if b then 1 else 0))
  /\ (forall s z, row_get row col CNone = CStr s -> int_of_str s = Some z ->
        group_count row col = Ok z)
  /\ (forall sign, row_get row col CNone = CFloat (S754_zero sign) ->
        group_count row col = Ok 0)
  /\ (forall sign m e,
        row_get row col CNone = CFloat (S754_finite sign m e) ->
        exists z,
          group_count row col = Ok z
          /\ (if sign then z <= 0 else 0 <= z)
          /\ Z.abs z * 2 ^ Z.max 0 (- e) <= Z.pos m * 2 ^ Z.max 0 e
          /\ Z.pos m * 2 ^ Z.max 0 e < (Z.abs z + 1) * 2 ^ Z.max 0 (- e)).
Proof.
  split; [|split; [|split; [|split; [|split]]]].
  - intros Hna. unfold group_count. by rewrite Hna.
  - intros z Hc. rewrite group_count_present by (by rewrite Hc).
    by rewrite Hc.
  - intros b Hc. rewrite group_count_present by (by rewrite Hc).
    by rewrite Hc.
  - intros s z Hc Hs. rewrite group_count_present by (by rewrite Hc).
    rewrite Hc. simpl. by rewrite Hs.
  - intros sign Hc. rewrite group_count_present by (by rewrite Hc).
    by rewrite Hc.
  - intros sign m e Hc. rewrite group_count_present by (by rewrite Hc).
    rewrite Hc. apply float_to_int_truncates.
Qed.

(** C7. A row whose scenario cell normalizes to [None] leaves the list
    of scenarios as it is, whatever its group counts.  The count of a
    group is its cell read as an integer: 0 for a missing or NaN cell,
    the integer itself (so 0 for the cell 0), 1 or 0 for a boolean, what
    [int] parses from a text, and for a float its integer part with the
    sign kept.  For any other row that the loop body gets through, each
    group contributes one entry (file name, counts per base, tactic
    block) when its count is positive and none otherwise, and one
    scenario list made of these entries is appended exactly when a count
    is positive.  The loop body gets through whenever the counts can be
    read and the builder returns for the groups with a positive
    count. *)
Theorem scenario_appended_iff (scenarios : list value)
    (row : gmap string cell) :
  (safe_str (row_get row "scenario" CNone) = CNone ->
   process_row scenarios row = Ok scenarios)
  /\ (forall col,
        (isna (row_get row col CNone) = true -> group_count row col = Ok 0)
        /\ (forall z, row_get row col CNone = CInt z ->
              group_count row col = Ok z)
        /\ (forall b, row_get row col CNone = CBool b ->
              group_count row col = Ok (if b then 1 else 0))
        /\ (forall s z, row_get row col CNone = CStr s ->
              int_of_str s = Some z -> group_count row col = Ok z)
        /\ (forall sign, row_get row col CNone = CFloat (S754_zero sign) ->
              group_count row col = Ok 0)
        /\ (forall sign m e,
              row_get row col CNone = CFloat (S754_finite sign m e) ->
              exists z,
                group_count row col = Ok z
                /\ (if sign then z <= 0 else 0 <= z)
                /\ Z.abs z * 2 ^ Z.max 0 (- e) <= Z.pos m * 2 ^ Z.max 0 e
                /\ Z.pos m * 2 ^ Z.max 0 e
                   < (Z.abs z + 1) * 2 ^ Z.max 0 (- e)))
  /\ (forall scenarios',
        safe_str (row_get row "scenario" CNone) <> CNone ->
        process_row scenarios row = Ok scenarios' ->
        exists c1 c2 es1 es2,
          group_count row "first group" = Ok c1
          /\ group_count row "second group" = Ok c2
          /\ (c1 <= 0 -> es1 = [])
          /\ (0 < c1 -> exists apb sup,
                distribute_across_bases c1 2 = Ok apb
                /\ build_suppression "g1_" "g1a_" row = Ok sup
                /\ es1 = [ VDict
                             [ ("file_name", VStr "SUT_series_hybrid.json");
                               ("agents_per_base", VList (VInt <$> apb));
                               ("suppression_tactic", VDict sup) ] ])
          /\ (c2 <= 0 -> es2 = [])
          /\ (0 < c2 -> exists apb sup,
                distribute_across_bases c2 2 = Ok apb
                /\ build_suppression "g2_" "g2a_" row = Ok sup
                /\ es2 = [ VDict
                             [ ("file_name", VStr "SUT_series_hybrid.json");
                               ("agents_per_base", VList (VInt <$> apb));
                               ("suppression_tactic", VDict sup) ] ])
          /\ ((exists es, scenarios' = scenarios ++ [es])
              <-> (0 < c1 \/ 0 < c2))
          /\ (0 < c1 \/ 0 < c2 ->
              scenarios' = scenarios ++ [VList (es1 ++ es2)])
          /\ (c1 <= 0 -> c2 <= 0 -> scenarios' = scenarios))
  /\ (forall c1 c2,
        safe_str (row_get row "scenario" CNone) <> CNone ->
        group_count row "first group" = Ok c1 ->
        group_count row "second group" = Ok c2 ->
        (0 < c1 -> exists sup, build_suppression "g1_" "g1a_" row = Ok sup) ->
        (0 < c2 -> exists sup, build_suppression "g2_" "g2a_" row = Ok sup) ->
        exists scenarios', process_row scenarios row = Ok scenarios').
Proof.
  split; [apply process_row_blank|].
  split; [apply group_count_reads_cell|split].
  - intros scenarios' Hscen Hp. rewrite process_row_nonblank in Hp by done.
    destruct (add_group "first group" "g1_" "g1a_" row []) as [es1|] eqn:H1;
      simpl in Hp; [|done].
    destruct (add_group "second group" "g2_" "g2a_" row es1) as [es|] eqn:H2;
      simpl in Hp; [|done].
    apply add_group_inv in H1 as (c1 & Hc1 & Hle1 & Hpos1).
    apply add_group_inv in H2 as (c2 & Hc2 & Hle2 & Hpos2).
    assert (forall x : value, scenarios ++ [x] <> scenarios) as Hgrow.
    { intros x Hx. apply (f_equal length) in Hx.
      rewrite length_app in Hx. simpl in Hx. lia. }
    change NUM_BASES with 2 in Hpos1, Hpos2.
    destruct (Z.lt_ge_cases 0 c1) as [Hp1|Hn1];
      destruct (Z.lt_ge_cases 0 c2) as [Hp2|Hn2].
    + destruct (Hpos1 Hp1) as (apb1 & sup1 & Hd1 & Hb1 & ->).
      destruct (Hpos2 Hp2) as (apb2 & sup2 & Hd2 & Hb2 & ->).
      simpl in Hp. injection Hp as <-.
      exists c1, c2, [group_entry apb1 sup1], [group_entry apb2 sup2].
      repeat split; try done; try lia; eauto.
    + destruct (Hpos1 Hp1) as (apb1 & sup1 & Hd1 & Hb1 & ->).
      rewrite (Hle2 Hn2) in Hp. simpl in Hp. injection Hp as <-.
      exists c1, c2, [group_entry apb1 sup1], [].
      repeat split; try done; try lia; eauto.
    + rewrite (Hle1 Hn1) in *.
      destruct (Hpos2 Hp2) as (apb2 & sup2 & Hd2 & Hb2 & ->).
      simpl in Hp. injection Hp as <-.
      exists c1, c2, [], [group_entry apb2 sup2].
      repeat split; try done; try lia; eauto.
    + rewrite (Hle1 Hn1) in *. rewrite (Hle2 Hn2) in Hp.
      injection Hp as <-.
      exists c1, c2, [], [].
      repeat split; try done; try lia.
      intros [x Hx]. by destruct (Hgrow x).
  - intros c1 c2 Hscen Hc1 Hc2 Hs1 Hs2.
    rewrite process_row_nonblank by done.
    destruct (add_group_returns "first group" "g1_" "g1a_" row [] c1 Hc1 Hs1)
      as [es1 ->]. simpl.
    destruct (add_group_returns "second group" "g2_" "g2a_" row es1 c2 Hc2 Hs2)
      as [es2 ->]. simpl.
    destruct es2; eauto.
Qed.

(** A row without a scenario id is skipped by the loop. *)
Lemma main_loop_blank_row (scenarios : list value) (row : gmap string cell)
    (rows : list (gmap string cell)) :
  safe_str (row_get row "scenario" CNone) = CNone ->
  main_loop scenarios (row :: rows) = main_loop scenarios rows.
Proof. intros H. simpl. by rewrite (process_row_blank _ _ H). Qed.

(** Two rows end to end: two scenarios, the first with two entries of
    which the first has an alternative, the second with one entry and no
    alternative. *)
Example main_loop_two_rows :
  exists alt tac2,
    main_loop [] [ row_both_groups; row_second_group ]
    = Ok [ VList [ group_entry [2; 1]
                     [ ("main", VDict []); ("alternative", alt) ];
                   group_entry [1; 1] tac2 ];
           VList [ group_entry [1; 0] [ ("main", VDict []) ] ] ]
    /\ dict_get "alternative" tac2 = None.
Proof. eexists _, _. split; vm_compute; reflexivity. Qed.

(** C9. For [num_bases >= 1] and a negative [total] the distributor
    returns [num_bases - total] zeros: more than [num_bases] counts, with
    sum 0 and not [total].  For [total >= 0] the result has [num_bases]
    counts that sum to [total].  The loop body calls the distributor only
    with a count that is positive. *)
Theorem distribute_negative_total (total num_bases : Z) :
  1 <= num_bases ->
  (total < 0 ->
   exists counts,
     distribute_across_bases total num_bases = Ok counts
     /\ Z.of_nat (length counts) = num_bases - total
     /\ num_bases < Z.of_nat (length counts)
     /\ (forall i c, counts !! i = Some c -> c = 0)
     /\ sum_list counts = 0
     /\ sum_list counts <> total)
  /\ (0 <= total ->
      exists counts,
        distribute_across_bases total num_bases = Ok counts
        /\ Z.of_nat (length counts) = num_bases
        /\ sum_list counts = total)
  /\ (forall col main_prefix alt_prefix row es es',
        add_group col main_prefix alt_prefix row es = Ok es' ->
        es' = es
        \/ exists count apb sup,
             group_count row col = Ok count /\ 0 < count
             /\ distribute_across_bases count NUM_BASES = Ok apb
             /\ es' = es ++ [group_entry apb sup]).
Proof.
  intros Hn. split; [|split].
  - intros Hneg. eexists. split; [by apply distribute_negative_zeros|].
    rewrite length_replicate, sum_list_replicate.
    repeat split; try lia.
    intros i c Hi. by apply lookup_replicate in Hi as [-> _].
  - by apply distribute_contract.
  - intros col mp ap row es es' Ha.
    apply add_group_inv in Ha as (c & Hc & Hle & Hpos).
    destruct (Z.lt_ge_cases 0 c) as [Hp|Hnp].
    + right. destruct (Hpos Hp) as (apb & sup & Hd & _ & ->).
      exists c, apb, sup. done.
    + left. by apply Hle.
Qed.

(** * Further properties *)

(** ** Base distributor *)

(** For a non-negative total both branches are the one quotient and
    remainder formula. *)
Lemma distribute_nonneg_form (total num_bases : Z) :
  1 <= num_bases -> 0 <= total ->
  distribute_across_bases total num_bases
  = Ok (replicate (Z.to_nat (total `mod` num_bases)) (total `div` num_bases + 1)
        ++ replicate (Z.to_nat (num_bases - total `mod` num_bases))
             (total `div` num_bases)).
Proof.
  intros Hn H0. destruct (Z.lt_ge_cases total num_bases) as [Hlt|Hge].
  - rewrite distribute_lt by done.
    by rewrite Z.mod_small, Z.div_small by lia.
  - by apply distribute_ge.
Qed.

Lemma lookup_two_runs (a b : nat) (x y c : Z) (i : nat) :
  (replicate a x ++ replicate b y) !! i = Some c ->
  ((i < a)%nat /\ c = x) \/ ((a <= i)%nat /\ c = y).
Proof.
  intros Hi. destruct (decide (i < a)%nat) as [Hlt|Hge].
  - rewrite lookup_app_l in Hi by (rewrite length_replicate; lia).
    apply lookup_replicate in Hi as [-> _]. by left.
  - rewrite lookup_app_r in Hi by (rewrite length_replicate; lia).
    apply lookup_replicate in Hi as [-> _]. right. split; [lia|done].
Qed.

Lemma filter_positive_replicate (k : nat) (x : Z) :
  filter (fun c => 0 < c) (replicate k x)
  = if decide (0 < x) then replicate k x else [].
Proof.
  induction k as [|k IH]; simpl.
  - by destruct (decide (0 < x)).
  - rewrite filter_cons, IH. by destruct (decide (0 < x)).
Qed.

(** X1. Whenever [num_bases >= 1] and [total >= 0], the result is
    [total % num_bases] times [total // num_bases + 1] followed by
    [total // num_bases] for the other bases: the [else] branch gives what
    the first branch would. *)
Theorem distribute_single_formula (total num_bases : Z) :
  1 <= num_bases -> 0 <= total ->
  distribute_across_bases total num_bases
  = Ok (replicate (Z.to_nat (total `mod` num_bases)) (total `div` num_bases + 1)
        ++ replicate (Z.to_nat (num_bases - total `mod` num_bases))
             (total `div` num_bases)).
Proof.
  intros Hn H0. destruct (Z.lt_ge_cases total num_bases) as [Hlt|Hge].
  - rewrite distribute_lt by done.
    rewrite Z.mod_small, Z.div_small by lia. done.
  - apply distribute_ge; lia.
Qed.

(** X2. The distributor raises exactly when [num_bases = 0] and
    [total >= 0], and then it is the division by zero; the in-place
    increments never leave the list. *)
Theorem distribute_raises_iff (total num_bases : Z) (e : exn) :
  distribute_across_bases total num_bases = Raise e
  <-> e = ZeroDivisionError /\ num_bases = 0 /\ 0 <= total.
Proof.
  unfold distribute_across_bases.
  destruct (Z.geb_spec total num_bases) as [Hge|Hlt].
  - destruct (Z.eqb_spec num_bases 0) as [->|Hne].
    + split; [intros [= <-]; repeat split; lia|by intros (-> & _)].
    + split; [|intros (_ & ? & _); done].
      destruct (Z.lt_ge_cases 0 num_bases) as [Hpos|Hneg].
      * pose proof (Z.mod_pos_bound total num_bases Hpos) as Hr.
        unfold list_mul.
        pose proof (for_range_incr (Z.to_nat (total `mod` num_bases)) 0
                      (Z.to_nat num_bases) (total `div` num_bases)
                      ltac:(lia)) as H.
        simpl in H. rewrite H. done.
      * pose proof (Z.mod_neg_bound total num_bases ltac:(lia)) as Hr.
        rewrite (Z2Nat.nonpos (total `mod` num_bases)) by lia. done.
  - split; [done|intros (_ & ? & ?); lia].
Qed.

(** X3. For [num_bases >= 1] and [total >= 0] the counts never increase
    from one base to the next, and no two bases differ by more than
    one aircraft. *)
Theorem distribute_balanced (total num_bases : Z) :
  1 <= num_bases -> 0 <= total ->
  exists counts,
    distribute_across_bases total num_bases = Ok counts
    /\ forall (i j : nat) (ci cj : Z),
         (i <= j)%nat -> counts !! i = Some ci -> counts !! j = Some cj ->
         cj <= ci <= cj + 1.
Proof.
  intros Hn H0. eexists. split; [by apply distribute_nonneg_form|].
  intros i j ci cj Hij Hi Hj.
  apply lookup_two_runs in Hi as [[? ->]|[? ->]];
    apply lookup_two_runs in Hj as [[? ->]|[? ->]]; lia.
Qed.

(** X4. For [num_bases >= 1] and [total >= 0], [num_bases] more aircraft
    give every base exactly one more. *)
Theorem distribute_one_more_each (total num_bases : Z) :
  1 <= num_bases -> 0 <= total ->
  exists counts,
    distribute_across_bases total num_bases = Ok counts
    /\ distribute_across_bases (total + num_bases) num_bases
       = Ok ((fun c => c + 1) <$> counts).
Proof.
  intros Hn H0. eexists. split; [by apply distribute_nonneg_form|].
  rewrite distribute_nonneg_form by lia.
  replace (total + num_bases) with (total + 1 * num_bases) by lia.
  rewrite Z.mod_add, Z.div_add by lia.
  by rewrite fmap_app, !fmap_replicate.
Qed.

(** X5. A negative [num_bases] does not fail: with
    [total >= num_bases] the result is the empty list. *)
Theorem distribute_negative_bases (total num_bases : Z) :
  num_bases < 0 -> num_bases <= total ->
  distribute_across_bases total num_bases = Ok [].
Proof.
  intros Hn Hle. unfold distribute_across_bases.
  destruct (Z.geb_spec total num_bases); [|lia].
  destruct (Z.eqb_spec num_bases 0); [lia|].
  pose proof (Z.mod_neg_bound total num_bases Hn) as Hr.
  unfold list_mul.
  rewrite (Z2Nat.nonpos (total `mod` num_bases)) by lia.
  by rewrite (Z2Nat.nonpos num_bases) by lia.
Qed.

(** X6. For [num_bases >= 1] and [total >= 0] the number of bases that
    get at least one aircraft is the smaller of [total] and
    [num_bases]. *)
Theorem distribute_served_bases (total num_bases : Z) :
  1 <= num_bases -> 0 <= total ->
  exists counts,
    distribute_across_bases total num_bases = Ok counts
    /\ Z.of_nat (length (filter (fun c => 0 < c) counts))
       = Z.min total num_bases.
Proof.
  intros Hn H0. eexists. split; [by apply distribute_nonneg_form|].
  pose proof (Z.mod_pos_bound total num_bases ltac:(lia)) as Hr.
  assert (0 <= total `div` num_bases) as Hq by (apply Z.div_pos; lia).
  rewrite filter_app, !filter_positive_replicate.
  destruct (decide (0 < total `div` num_bases + 1)) as [_|]; [|lia].
  destruct (decide (0 < total `div` num_bases)) as [Hpos|Hzero].
  - rewrite length_app, !length_replicate.
    assert (num_bases <= total); [|lia].
    destruct (Z.lt_ge_cases total num_bases) as [Hlt|]; [|done].
    rewrite Z.div_small in Hpos by lia. lia.
  - rewrite app_nil_r, length_replicate.
    assert (total `div` num_bases = 0) as Hq0 by lia.
    apply Z.div_small_iff in Hq0 as [Hs|Hs]; [|lia|lia].
    rewrite Z.mod_small by lia. lia.
Qed.

(** ** Cell normalizer *)

Lemma strip_nonempty_trimmed (s : string) :
  strip s <> "" -> trimmed (strip s).
Proof.
  intros Hne. destruct (all_space s) eqn:Hs.
  - apply strip_empty_iff in Hs. done.
  - destruct (strip_decomp s Hs) as (pre & post & _ & _ & _ & Ht). exact Ht.
Qed.

Lemma lstrip_skip_space (pre s : string) :
  all_space pre = true -> lstrip (pre +:+ s) = lstrip s.
Proof.
  induction pre as [|c pre IH]; [done|].
  rewrite append_cons. simpl. intros H.
  apply andb_true_iff in H as [-> H]. by apply IH.
Qed.

Lemma lstrip_app_text (s t : string) :
  all_space s = false -> lstrip (s +:+ t) = lstrip s +:+ t.
Proof.
  induction s as [|c s IH]; [done|].
  rewrite append_cons. simpl.
  destruct (is_space c); simpl; [exact IH|done].
Qed.

Lemma rstrip_skip_space (s post : string) :
  all_space post = true -> rstrip (s +:+ post) = rstrip s.
Proof.
  intros Hpost. induction s as [|c s IH].
  - rewrite append_nil. by apply rstrip_empty_iff.
  - rewrite append_cons. simpl. by rewrite IH.
Qed.

(** White space around a text does not change what [strip] returns. *)
Lemma strip_padding (pre s post : string) :
  all_space pre = true -> all_space post = true ->
  strip (pre +:+ s +:+ post) = strip s.
Proof.
  intros Hpre Hpost. unfold strip. rewrite lstrip_skip_space by done.
  destruct (all_space s) eqn:Hs.
  - assert (all_space (s +:+ post) = true) as Hall
      by (by rewrite all_space_app, Hs, Hpost).
    apply lstrip_empty_iff in Hall, Hs. by rewrite Hall, Hs.
  - rewrite lstrip_app_text by done. by apply rstrip_skip_space.
Qed.

(** X7. Normalizing twice is normalizing once. *)
Theorem safe_str_idempotent (val : cell) :
  safe_str (safe_str val) = safe_str val.
Proof.
  unfold safe_str at 2 3. destruct (isna val); [done|].
  destruct (String.eqb_spec (strip (py_str val)) "") as [|Hne]; [done|].
  simpl. apply strip_nonempty_trimmed in Hne as Ht.
  unfold safe_str. simpl. rewrite (strip_trimmed _ Ht).
  by destruct (String.eqb_spec (strip (py_str val)) "").
Qed.

(** X8. White space put before and after a text cell does not change
    what it normalizes to. *)
Theorem safe_str_ignores_padding (pre s post : string) :
  all_space pre = true -> all_space post = true ->
  safe_str (CStr (pre +:+ s +:+ post)) = safe_str (CStr s).
Proof.
  intros Hpre Hpost. unfold safe_str. simpl.
  by rewrite strip_padding.
Qed.

(** ** Suppression-tactic builder *)

Lemma main_tactic_lookup (main_prefix : string) (row : gmap string cell)
    (k : string) :
  k ∈ [ "select_poi"; "track_poi"; "suppress" ] ->
  dict_get k (main_tactic main_prefix row)
  = match safe_str (field row main_prefix k) with
    | CStr s => Some (VStr s)
    | _ => None
    end.
Proof.
  intros Hk. repeat (apply elem_of_cons in Hk as [->|Hk]);
    [..|by apply elem_of_nil in Hk];
    unfold main_tactic;
    case_safe_str (field row main_prefix "select_poi");
    case_safe_str (field row main_prefix "track_poi");
    case_safe_str (field row main_prefix "suppress"); reflexivity.
Qed.

Lemma main_tactic_keys (main_prefix : string) (row : gmap string cell) :
  sublist (dict_keys (main_tactic main_prefix row))
    [ "select_poi"; "track_poi"; "suppress" ].
Proof.
  unfold main_tactic.
  case_safe_str (field row main_prefix "select_poi");
    case_safe_str (field row main_prefix "track_poi");
    case_safe_str (field row main_prefix "suppress"); simpl;
    repeat constructor.
Qed.

Lemma alt_present_trigger (main_prefix alt_prefix : string)
    (row : gmap string cell) :
  alt_present main_prefix alt_prefix row
  = alt_trigger main_prefix alt_prefix row.
Proof.
  unfold alt_present, alt_trigger, any, none_if_na. simpl.
  case_safe_str (field row alt_prefix "select_poi");
    case_safe_str (field row alt_prefix "track_poi");
    case_safe_str (field row alt_prefix "suppress");
    case_safe_str (field row alt_prefix "change_condition");
    case_safe_str (field row main_prefix "change_condition"); simpl;
    rewrite ?orb_true_r; try reflexivity;
    destruct (isna (field row alt_prefix "threshold"));
    destruct (isna (field row main_prefix "threshold")); simpl;
    rewrite ?orb_false_r; reflexivity.
Qed.

Lemma collapse_integral_notna (val out : cell) :
  isna val = false -> collapse_integral val = Ok out -> isna out = false.
Proof.
  unfold collapse_integral. destruct val as [|s|z|f|b]; simpl; try done.
  - by intros _ [= <-].
  - intros _. destruct (int_fits_float z); simpl; [|done]. by intros [= <-].
  - intros Hna. destruct (float_is_integer f) eqn:Hi.
    + destruct (float_integral_exact f Hi) as (z & -> & _). simpl.
      by intros [= <-].
    + by intros [= <-].
  - by intros _ [= <-].
Qed.

Lemma collapse_integral_raises (val : cell) (e : exn) :
  collapse_integral val = Raise e
  <-> e = OverflowError
      /\ exists z, val = CInt z /\ int_fits_float z = false.
Proof.
  unfold collapse_integral. destruct val as [|s|z|f|b]; simpl.
  - split; [done|]. by intros (_ & z & ? & _).
  - split; [done|]. by intros (_ & z & ? & _).
  - destruct (int_fits_float z) eqn:Hz; simpl.
    + split; [done|]. intros (_ & z' & [= <-] & ?). congruence.
    + split; [intros [= <-]; eauto|by intros (-> & _)].
  - destruct (float_is_integer f) eqn:Hi.
    + destruct (float_integral_exact f Hi) as (z & -> & _). simpl.
      split; [done|]. by intros (_ & z' & ? & _).
    + split; [done|]. by intros (_ & z' & ? & _).
  - split; [done|]. by intros (_ & z & ? & _).
Qed.

Lemma thresh_raises (main_prefix alt_prefix : string)
    (row : gmap string cell) (e : exn) :
  thresh main_prefix alt_prefix row = Raise e
  <-> e = OverflowError
      /\ exists z, selected_threshold main_prefix alt_prefix row = CInt z
                   /\ int_fits_float z = false.
Proof.
  unfold thresh, selected_threshold.
  destruct (isna (field row alt_prefix "threshold")) eqn:Ha; simpl;
    [|apply collapse_integral_raises].
  destruct (isna (field row main_prefix "threshold")) eqn:Hm; simpl;
    [|apply collapse_integral_raises].
  split; [done|]. intros (_ & z & Hz & _). rewrite Hz in Hm. done.
Qed.

(** X9. The main tactic of a returned block holds, for each of
    [select_poi], [track_poi] and [suppress], the normalized
    main-prefixed cell when that is text and no key when it is [None]:
    nothing is defaulted, and there is no other key. *)
Theorem main_tactic_mirrors_cells (main_prefix alt_prefix : string)
    (row : gmap string cell) (t : dict) :
  build_suppression main_prefix alt_prefix row = Ok t ->
  exists m,
    dict_get "main" t = Some (VDict m)
    /\ sublist (dict_keys m) [ "select_poi"; "track_poi"; "suppress" ]
    /\ forall k, k ∈ [ "select_poi"; "track_poi"; "suppress" ] ->
         (forall s, dict_get k m = Some (VStr s)
                    <-> safe_str (field row main_prefix k) = CStr s)
         /\ (dict_get k m = None
             <-> safe_str (field row main_prefix k) = CNone).
Proof.
  intros Hb. apply build_suppression_inv in Hb as (Hmain & _).
  eexists. split; [exact Hmain|]. split; [apply main_tactic_keys|].
  intros k Hk. rewrite (main_tactic_lookup _ _ _ Hk).
  destruct (safe_str_cases (field row main_prefix k))
    as [[-> _]|(s & -> & _ & _)]; unfold VStr.
  - split; [intros s|]; split; done.
  - split; [intros s'|]; split; try done; by intros [= ->].
Qed.

(** X10. A returned block has the key ["alternative"] exactly when a
    text field under the alternative prefix or one of the two change
    conditions normalizes to text, or a threshold is present and counts
    as true. *)
Theorem alternative_emitted_iff (main_prefix alt_prefix : string)
    (row : gmap string cell) (t : dict) :
  build_suppression main_prefix alt_prefix row = Ok t ->
  dict_get "alternative" t <> None
  <-> alt_trigger main_prefix alt_prefix row = true.
Proof.
  intros Hb. apply build_suppression_inv in Hb as (_ & Hno & Hyes).
  rewrite <- alt_present_trigger.
  destruct (alt_present main_prefix alt_prefix row).
  - destruct (Hyes eq_refl) as (tac & th & _ & _ & ->). done.
  - rewrite (Hno eq_refl). done.
Qed.

(** X11. The keys of a returned block are ["main"], or ["main"] and then
    ["alternative"]; the keys of the alternative object are, in this
    order, ["change_condition"] and ["threshold"] where they are set,
    and always ["alternative_tactic"] last. *)
Theorem block_key_order (main_prefix alt_prefix : string)
    (row : gmap string cell) (t : dict) :
  build_suppression main_prefix alt_prefix row = Ok t ->
  dict_keys t = [ "main" ]
  \/ (dict_keys t = [ "main"; "alternative" ]
      /\ exists a keys,
           dict_get "alternative" t = Some (VDict a)
           /\ dict_keys a = keys ++ [ "alternative_tactic" ]
           /\ sublist keys [ "change_condition"; "threshold" ]).
Proof.
  intros Hb. apply build_suppression_inv in Hb as (_ & Hno & Hyes).
  destruct (alt_present main_prefix alt_prefix row).
  - right. destruct (Hyes eq_refl) as (tac & th & _ & _ & ->).
    split; [done|].
    exists (alt_obj (change_cond main_prefix alt_prefix row) th tac),
      ((if truthy (change_cond main_prefix alt_prefix row)
        then [ "change_condition" ] else [])
       ++ match th with CNone => [] | _ => [ "threshold" ] end).
    split; [done|]. unfold alt_obj.
    destruct (truthy (change_cond main_prefix alt_prefix row)), th; simpl;
      (split; [reflexivity|repeat constructor]).
  - left. by rewrite (Hno eq_refl).
Qed.

(** X12. An emitted alternative tactic is always complete: it is
    [select_poi], [track_poi] and [suppress], in this order, each with a
    non-empty text, whatever the row leaves blank. *)
Theorem alternative_tactic_complete (main_prefix alt_prefix : string)
    (row : gmap string cell) (t a : dict) :
  build_suppression main_prefix alt_prefix row = Ok t ->
  dict_get "alternative" t = Some (VDict a) ->
  exists sel track sup,
    dict_get "alternative_tactic" a
    = Some (VDict [ ("select_poi", VStr sel);
                    ("track_poi", VStr track);
                    ("suppress", VStr sup) ])
    /\ sel <> "" /\ track <> "" /\ sup <> "".
Proof.
  intros Hb Ha.
  destruct (build_suppression_alternative _ _ _ _ _ Hb Ha)
    as (_ & tac & th & Htac & _ & ->).
  rewrite alt_tactic_closed_form in Htac. injection Htac as <-.
  rewrite alt_obj_get_tactic. unfold py_or.
  case_safe_str (field row alt_prefix "select_poi");
    case_safe_str (field row alt_prefix "track_poi");
    case_safe_str (field row alt_prefix "suppress"); simpl;
    try destruct (String.eqb (lower (main_select main_prefix row))
                    "vegetation");
    eexists _, _, _; (split; [reflexivity|]); repeat split; done.
Qed.

(** X13. A threshold that is written is never NaN and never [None]. *)
Theorem written_threshold_not_nan (main_prefix alt_prefix : string)
    (row : gmap string cell) (t a : dict) (v : value) :
  build_suppression main_prefix alt_prefix row = Ok t ->
  dict_get "alternative" t = Some (VDict a) ->
  dict_get "threshold" a = Some v ->
  exists out, v = Scalar out /\ isna out = false.
Proof.
  intros Hb Ha Hv.
  destruct (build_suppression_alternative _ _ _ _ _ Hb Ha)
    as (_ & tac & th & _ & Hth & ->).
  rewrite alt_obj_get_threshold in Hv.
  exists th. split; [by destruct th; simplify_eq|].
  unfold thresh in Hth.
  destruct (isna (field row alt_prefix "threshold")) eqn:Hna; simpl in Hth;
    [|by apply (collapse_integral_notna _ _ Hna)].
  destruct (isna (field row main_prefix "threshold")) eqn:Hnm; simpl in Hth;
    [|by apply (collapse_integral_notna _ _ Hnm)].
  injection Hth as <-. done.
Qed.

(** X14. The builder raises exactly when an alternative is due and the
    selected threshold is an integer beyond the range of a float, and
    then it raises [OverflowError]; it never fails on [.lower()] or on a
    missing column. *)
Theorem build_suppression_raises_iff (main_prefix alt_prefix : string)
    (row : gmap string cell) (e : exn) :
  build_suppression main_prefix alt_prefix row = Raise e
  <-> e = OverflowError
      /\ alt_trigger main_prefix alt_prefix row = true
      /\ exists z, selected_threshold main_prefix alt_prefix row = CInt z
                   /\ int_fits_float z = false.
Proof.
  rewrite build_suppression_parts, alt_tactic_closed_form.
  rewrite <- alt_present_trigger.
  destruct (alt_present main_prefix alt_prefix row).
  - cbn [bind].
    destruct (thresh main_prefix alt_prefix row) as [th|e'] eqn:Hth;
      cbn [bind].
    + split; [done|]. intros (-> & _ & Hz).
      assert (thresh main_prefix alt_prefix row = Raise OverflowError) as H
        by (by apply thresh_raises). congruence.
    + apply thresh_raises in Hth as (-> & Hz).
      split; [by intros [= <-]|by intros (-> & _)].
  - split; [done|]. by intros (_ & ? & _).
Qed.

(** X15. The block of a group depends only on the five fields under its
    main prefix and the five under its alternative prefix: two rows that
    agree on these ten cells give the same result. *)
Theorem build_suppression_reads_own_fields (main_prefix alt_prefix : string)
    (row row' : gmap string cell) :
  (forall name, name ∈ tactic_fields ->
     field row main_prefix name = field row' main_prefix name
     /\ field row alt_prefix name = field row' alt_prefix name) ->
  build_suppression main_prefix alt_prefix row
  = build_suppression main_prefix alt_prefix row'.
Proof.
  intros H.
  assert (forall name, name ∈ tactic_fields ->
            field row main_prefix name = field row' main_prefix name)
    as Hm by (intros; by apply H).
  assert (forall name, name ∈ tactic_fields ->
            field row alt_prefix name = field row' alt_prefix name)
    as Ha by (intros; by apply H).
  rewrite !build_suppression_parts.
  unfold alt_present, alt_tactic, thresh, change_cond, main_tactic.
  rewrite !(Hm "select_poi"), !(Hm "track_poi"), !(Hm "suppress"),
    !(Hm "change_condition"), !(Hm "threshold"),
    !(Ha "select_poi"), !(Ha "track_poi"), !(Ha "suppress"),
    !(Ha "change_condition"), !(Ha "threshold")
    by (unfold tactic_fields; repeat constructor).
  reflexivity.
Qed.

(** ** Row loop *)

Lemma distribute_nonneg_counts (total num_bases : Z) :
  1 <= num_bases -> 0 <= total ->
  exists counts,
    distribute_across_bases total num_bases = Ok counts
    /\ Z.of_nat (length counts) = num_bases
    /\ sum_list counts = total
    /\ forall i c, counts !! i = Some c -> 0 <= c.
Proof.
  intros Hn H0.
  destruct (distribute_contract total num_bases Hn H0) as (l & Hl & Hlen & Hs).
  exists l. repeat split; try done.
  rewrite distribute_nonneg_form in Hl by done. injection Hl as <-.
  assert (0 <= total `div` num_bases) as Hq by (apply Z.div_pos; lia).
  intros i c Hi. apply lookup_two_runs in Hi as [[_ ->]|[_ ->]]; lia.
Qed.

(** What the loop body appends does not depend on the list so far. *)
Lemma process_row_from_empty (scenarios : list value)
    (row : gmap string cell) :
  process_row scenarios row
  = match process_row [] row with
    | Ok new => Ok (scenarios ++ new)
    | Raise e => Raise e
    end.
Proof.
  destruct (safe_str_cases (row_get row "scenario" CNone))
    as [[Hs _]|(s & Hs & _ & _)].
  - rewrite !process_row_blank by done. by rewrite app_nil_r.
  - rewrite !process_row_nonblank by (by rewrite Hs).
    destruct (add_group "first group" "g1_" "g1a_" row []) as [es1|];
      [|done]. cbn [bind].
    destruct (add_group "second group" "g2_" "g2a_" row es1) as [es2|];
      [|done]. cbn [bind].
    destruct es2; [by rewrite app_nil_r|done].
Qed.

Lemma main_loop_from_empty (scenarios : list value)
    (rows : list (gmap string cell)) :
  main_loop scenarios rows
  = match main_loop [] rows with
    | Ok new => Ok (scenarios ++ new)
    | Raise e => Raise e
    end.
Proof.
  revert scenarios. induction rows as [|row rows IH]; intros scenarios.
  - simpl. by rewrite app_nil_r.
  - cbn [main_loop]. rewrite (process_row_from_empty scenarios).
    destruct (process_row [] row) as [new|]; [|done]. cbn [bind].
    rewrite (IH (scenarios ++ new)), (IH new).
    destruct (main_loop [] rows); [|done]. by rewrite app_assoc.
Qed.

Lemma add_group_well_formed (col main_prefix alt_prefix : string)
    (row : gmap string cell) (es es' : list value) :
  Forall well_formed_entry es ->
  add_group col main_prefix alt_prefix row es = Ok es' ->
  Forall well_formed_entry es'
  /\ (length es <= length es' <= length es + 1)%nat.
Proof.
  intros Hes Ha. apply add_group_inv in Ha as (c & _ & Hle & Hpos).
  destruct (Z.lt_ge_cases 0 c) as [Hp|Hn].
  - destruct (Hpos Hp) as (apb & sup & Hd & Hb & ->).
    rewrite length_app. simpl. split; [|lia].
    apply Forall_app. split; [done|]. apply Forall_singleton.
    destruct (distribute_nonneg_counts c NUM_BASES) as (l & Hl & ? & ? & ?);
      [done|lia|].
    rewrite Hd in Hl. injection Hl as <-.
    apply build_suppression_inv in Hb as (Hmain & _).
    exists apb, sup, (main_tactic main_prefix row).
    repeat split; try done. lia.
  - rewrite (Hle Hn). split; [done|lia].
Qed.

Lemma process_row_well_formed (row : gmap string cell) (new : list value) :
  process_row [] row = Ok new ->
  Forall well_formed_scenario new /\ (length new <= 1)%nat.
Proof.
  destruct (safe_str_cases (row_get row "scenario" CNone))
    as [[Hs _]|(s & Hs & _ & _)].
  - rewrite process_row_blank by done. intros [= <-]. split; [done|].
    simpl. lia.
  - rewrite process_row_nonblank by (by rewrite Hs).
    destruct (add_group "first group" "g1_" "g1a_" row []) as [es1|] eqn:H1;
      [|done]. cbn [bind].
    destruct (add_group "second group" "g2_" "g2a_" row es1) as [es2|] eqn:H2;
      [|done]. cbn [bind].
    apply add_group_well_formed in H1 as [Hw1 Hl1]; [|done].
    apply add_group_well_formed in H2 as [Hw2 Hl2]; [|done].
    simpl in Hl1. destruct es2 as [|e es2].
    + intros [= <-]. split; [done|]. simpl. lia.
    + intros [= <-]. split; [|simpl; lia].
      apply Forall_singleton. eexists. split; [done|].
      split; [simpl in *; lia|done].
Qed.

(** X18. When the loop over the rows ends, the list [scenarios] holds at
    most one scenario per row; every scenario is a list of one or two
    group entries; every entry is the dictionary with the keys
    [file_name], [agents_per_base] and [suppression_tactic] in this
    order, with the constant file name, two non-negative counts with a
    positive sum, and a tactic block that has a main tactic. *)
Theorem main_loop_well_formed (rows : list (gmap string cell))
    (scenarios : list value) :
  main_loop [] rows = Ok scenarios ->
  Forall well_formed_scenario scenarios
  /\ (length scenarios <= length rows)%nat.
Proof.
  revert scenarios. induction rows as [|row rows IH]; intros scenarios.
  - intros [= <-]. split; [done|]. simpl. lia.
  - cbn [main_loop].
    destruct (process_row [] row) as [new|] eqn:Hp; [|done]. cbn [bind].
    rewrite main_loop_from_empty.
    destruct (main_loop [] rows) as [rest|] eqn:Hrest; [|done].
    intros [= <-]. apply process_row_well_formed in Hp as [Hw Hl].
    destruct (IH rest eq_refl) as [Hw' Hl'].
    split; [by apply Forall_app|]. rewrite length_app. simpl. lia.
Qed.

(** X20. With the two configured bases a group of [count > 0] aircraft is
    split into [(count + 1) // 2] for the first base and [count // 2]
    for the second. *)
Theorem add_group_two_bases (col main_prefix alt_prefix : string)
    (row : gmap string cell) (es es' : list value) (count : Z) :
  add_group col main_prefix alt_prefix row es = Ok es' ->
  group_count row col = Ok count ->
  0 < count ->
  exists sup,
    build_suppression main_prefix alt_prefix row = Ok sup
    /\ es' = es ++ [ group_entry [ (count + 1) `div` 2; count `div` 2 ] sup ].
Proof.
  intros Ha Hc Hpos. apply add_group_inv in Ha as (c & Hc' & _ & Hadd).
  rewrite Hc in Hc'. injection Hc' as <-.
  destruct (Hadd Hpos) as (apb & sup & Hd & Hb & ->).
  exists sup. split; [done|]. do 3 f_equal.
  unfold NUM_BASES in Hd. rewrite distribute_nonneg_form in Hd by lia.
  injection Hd as <-.
  pose proof (Z.mod_pos_bound count 2 ltac:(lia)) as Hr.
  assert (count `mod` 2 = 0 \/ count `mod` 2 = 1) as [Hm|Hm] by lia;
    rewrite Hm; simpl; f_equal; Z.div_mod_to_equations; lia.
Qed.

(** X21. A count cell that holds a finite float is truncated towards
    zero: the count keeps the sign of the float and its magnitude is the
    integer part of the float's magnitude. *)
Theorem group_count_truncates (row : gmap string cell) (col : string)
    (s : bool) (m : positive) (e : Z) :
  row_get row col CNone = CFloat (S754_finite s m e) ->
  exists z,
    group_count row col = Ok z
    /\ (if s then z <= 0 else 0 <= z)
    /\ Z.abs z * 2 ^ Z.max 0 (- e) <= Z.pos m * 2 ^ Z.max 0 e
    /\ Z.pos m * 2 ^ Z.max 0 e < (Z.abs z + 1) * 2 ^ Z.max 0 (- e).
Proof.
  intros Hcell. unfold group_count.
  rewrite (row_get_present row col (CInt 0)) by (by rewrite Hcell).
  rewrite Hcell. simpl.
  eexists. split; [done|].
  destruct (Z.leb_spec 0 e) as [He|He].
  - rewrite (Z.max_l 0 (- e)), (Z.max_r 0 e), Z.pow_0_r by lia.
    assert (0 < 2 ^ e) by (apply Z.pow_pos_nonneg; lia).
    destruct s; split; nia.
  - rewrite (Z.max_r 0 (- e)), (Z.max_l 0 e), Z.pow_0_r by lia.
    assert (0 < 2 ^ (- e)) as Hd by (apply Z.pow_pos_nonneg; lia).
    pose proof (Z.div_mod (Z.pos m) (2 ^ (- e)) ltac:(lia)) as Hdm.
    pose proof (Z.mod_pos_bound (Z.pos m) (2 ^ (- e)) Hd) as Hr.
    assert (0 <= Z.pos m `div` 2 ^ (- e)) as Hq by (apply Z.div_pos; lia).
    destruct s; split; nia.
Qed.

(** X22. Reading a count fails in two cases only: an infinite float
    ([OverflowError]) and a text that [int] does not accept
    ([ValueError]).  A missing column or a NaN is the count 0, and every
    other cell gives the integer it holds: an integer itself, a boolean
    1 or 0, a text what [int] parses from it, a float its integer part
    with the sign kept. *)
Theorem group_count_raises_iff (row : gmap string cell) (col : string) :
  (forall e,
     group_count row col = Raise e
     <-> (exists sign, row_get row col CNone = CFloat (S754_infinity sign)
                       /\ e = OverflowError)
         \/ (exists s, row_get row col CNone = CStr s
                       /\ int_of_str s = None /\ e = ValueError))
  /\ (row !! col = None -> group_count row col = Ok 0)
  /\ (isna (row_get row col CNone) = true -> group_count row col = Ok 0)
  /\ (forall z, row_get row col CNone = CInt z -> group_count row col = Ok z)
  /\ (forall b, row_get row col CNone = CBool b ->
        group_count row col = Ok (if b then 1 else 0))
  /\ (forall s z, row_get row col CNone = CStr s -> int_of_str s = Some z ->
        group_count row col = Ok z)
  /\ (forall sign, row_get row col CNone = CFloat (S754_zero sign) ->
        group_count row col = Ok 0)
  /\ (forall sign m e,
        row_get row col CNone = CFloat (S754_finite sign m e) ->
        exists z,
          group_count row col = Ok z
          /\ (if sign then z <= 0 else 0 <= z)
          /\ Z.abs z * 2 ^ Z.max 0 (- e) <= Z.pos m * 2 ^ Z.max 0 e
          /\ Z.pos m * 2 ^ Z.max 0 e < (Z.abs z + 1) * 2 ^ Z.max 0 (- e)).
Proof.
  split; [|split; [|apply group_count_reads_cell]].
  - intros e. unfold group_count.
    destruct (isna (row_get row col CNone)) eqn:Hna; simpl.
    + split; [done|].
      intros [(sg & Hc & _)|(s & Hc & _)]; rewrite Hc in Hna; done.
    + rewrite (row_get_present row col (CInt 0)) by done.
      destruct (row_get row col CNone) as [|s|z|f|b]; simpl.
      * done.
      * destruct (int_of_str s) eqn:Hs.
        -- split; [done|]. intros [(? & ? & _)|(s' & [= <-] & ? & _)];
             [done|congruence].
        -- split; [intros [= <-]; right; eauto|].
           by intros [(? & ? & _)|(s' & _ & _ & ->)].
      * split; [done|]. by intros [(? & ? & _)|(? & ? & _)].
      * destruct f as [sg|sg| |sg m x]; simpl.
        -- split; [done|]. by intros [(? & ? & _)|(? & ? & _)].
        -- split; [intros [= <-]; left; eauto|].
           by intros [(? & _ & ->)|(? & ? & _)].
        -- done.
        -- split; [done|]. by intros [(? & ? & _)|(? & ? & _)].
      * split; [done|]. by intros [(? & ? & _)|(? & ? & _)].
  - intros Hnone. unfold group_count, row_get. by rewrite Hnone.
Qed.

End Script.

(** * Instances on sample rows *)

Lemma distribute_near_even_left_heavy_witness :
  1 <= 2 /\ 2 <= 5
  /\ exists counts : list Z,
       distribute_across_bases 5 2 = Ok counts
       /\ Z.of_nat (length counts) = 2
       /\ sum_list counts = 5
       /\ (forall (i : nat) (c : Z), counts !! i = Some c ->
             0 <= c
             /\ (Z.of_nat i < 5 `mod` 2 -> c = 5 `div` 2 + 1)
             /\ (5 `mod` 2 <= Z.of_nat i -> c = 5 `div` 2)).
Proof.
  split; [lia|]. split; [lia|].
  apply (distribute_near_even_left_heavy 5 2); lia.
Defined.

Lemma distribute_ones_then_zeros_witness :
  0 <= 0 /\ 0 < 2
  /\ distribute_across_bases 0 2
     = Ok (replicate (Z.to_nat 0) 1 ++ replicate (Z.to_nat (2 - 0)) 0)
  /\ (0 = 0 -> distribute_across_bases 0 2 = Ok (replicate (Z.to_nat 2) 0)).
Proof.
  split; [lia|]. split; [lia|].
  apply (distribute_ones_then_zeros 0 2); lia.
Defined.

Lemma distribute_negative_total_witness :
  1 <= 2 /\ -2 < 0
  /\ exists counts,
       distribute_across_bases (-2) 2 = Ok counts
       /\ Z.of_nat (length counts) = 2 - -2
       /\ 2 < Z.of_nat (length counts)
       /\ (forall i c, counts !! i = Some c -> c = 0)
       /\ sum_list counts = 0
       /\ sum_list counts <> -2.
Proof.
  split; [lia|]. split; [lia|].
  apply (proj1 (distribute_negative_total sample_float_repr
                  sample_int_of_str (-2) 2 ltac:(lia))).
  lia.
Defined.

Lemma safe_str_normalizes_witness :
  isna (CStr "  abc ") = false
  /\ all_space (py_str sample_float_repr (CStr "  abc ")) = false
  /\ exists pre s post,
       py_str sample_float_repr (CStr "  abc ") = pre +:+ s +:+ post
       /\ all_space pre = true /\ all_space post = true
       /\ trimmed s /\ safe_str sample_float_repr (CStr "  abc ") = CStr s.
Proof.
  split; [reflexivity|]. split; [reflexivity|].
  apply (proj1 (proj2 (proj2 (safe_str_normalizes sample_float_repr
                                (CStr "  abc "))))); reflexivity.
Defined.

Lemma alternative_tactic_defaults_witness :
  let t :=
    [ ("main", VDict [ ("select_poi", VStr "Vegetation") ]);
      ("alternative",
       VDict [ ("change_condition", VStr "wind_shift");
               ("threshold", VInt 3);
               ("alternative_tactic",
                VDict [ ("select_poi", VStr "water");
                        ("track_poi", VStr "follow_firefront");
                        ("suppress", VStr "direct") ]) ]) ] in
  build_suppression sample_float_repr sample_int_of_str "g1_" "g1a_"
    row_change_condition = Ok t
  /\ exists a tac,
       dict_get "alternative" t = Some (VDict a)
       /\ dict_get "alternative_tactic" a = Some (VDict tac)
       /\ dict_get "select_poi" tac = Some (VStr "water")
       /\ dict_get "track_poi" tac = Some (VStr "follow_firefront")
       /\ dict_get "suppress" tac = Some (VStr "direct").
Proof.
  intros t.
  assert (build_suppression sample_float_repr sample_int_of_str "g1_" "g1a_"
            row_change_condition = Ok t) as Hb by (vm_compute; reflexivity).
  split; [exact Hb|].
  destruct (alternative_tactic_defaults sample_float_repr sample_int_of_str
              "g1_" "g1a_" row_change_condition t _ Hb eq_refl)
    as (m & tac & Hm & Htac & _ & Hsel & _ & Htrack & _ & Hsup).
  eexists _, tac. split; [reflexivity|]. split; [exact Htac|].
  injection Hm as <-.
  split; [|split].
  - apply (proj1 (Hsel eq_refl) "Vegetation"); reflexivity.
  - apply Htrack. reflexivity.
  - apply Hsup. reflexivity.
Defined.

Lemma alternative_condition_and_threshold_witness :
  let a :=
    [ ("change_condition", VStr "wind_shift");
      ("threshold", VInt 3);
      ("alternative_tactic",
       VDict [ ("select_poi", VStr "water");
               ("track_poi", VStr "follow_firefront");
               ("suppress", VStr "direct") ]) ] in
  let t :=
    [ ("main", VDict [ ("select_poi", VStr "Vegetation") ]);
      ("alternative", VDict a) ] in
  build_suppression sample_float_repr sample_int_of_str "g1_" "g1a_"
    row_change_condition = Ok t
  /\ dict_get "alternative" t = Some (VDict a)
  /\ dict_get "change_condition" a = Some (VStr "wind_shift")
  /\ exists out,
       dict_get "threshold" a = Some (Scalar out)
       /\ collapsed (field row_change_condition "g1_" "threshold") out.
Proof.
  intros a t.
  assert (build_suppression sample_float_repr sample_int_of_str "g1_" "g1a_"
            row_change_condition = Ok t) as Hb by (vm_compute; reflexivity).
  split; [exact Hb|]. split; [reflexivity|].
  destruct (alternative_condition_and_threshold sample_float_repr
              sample_int_of_str "g1_" "g1a_" row_change_condition t a
              Hb eq_refl)
    as (_ & Hcond & _ & _ & Hth & _).
  split.
  - apply Hcond; reflexivity.
  - apply Hth; reflexivity.
Defined.

Lemma scenario_appended_iff_witness :
  safe_str sample_float_repr (row_get row_no_tactic "scenario" CNone) <> CNone
  /\ process_row sample_float_repr sample_int_of_str [] row_no_tactic
     = Ok [ VList [ group_entry [3; 2] [ ("main", VDict []) ] ] ]
  /\ (exists c1 c2,
        group_count sample_int_of_str row_no_tactic "first group" = Ok c1
        /\ group_count sample_int_of_str row_no_tactic "second group" = Ok c2
        /\ ((exists es,
               [ VList [ group_entry [3; 2] [ ("main", VDict []) ] ] ]
               = [] ++ [es])
            <-> (0 < c1 \/ 0 < c2)))
  /\ row_get row_zero_count "first group" CNone = CInt 0
  /\ group_count sample_int_of_str row_zero_count "first group" = Ok 0
  /\ isna (row_get row_zero_count "second group" CNone) = true
  /\ group_count sample_int_of_str row_zero_count "second group" = Ok 0
  /\ safe_str sample_float_repr (row_get row_zero_count "scenario" CNone)
     <> CNone
  /\ process_row sample_float_repr sample_int_of_str [] row_zero_count
     = Ok []
  /\ exists c1 c2,
       group_count sample_int_of_str row_zero_count "first group" = Ok c1
       /\ group_count sample_int_of_str row_zero_count "second group" = Ok c2
       /\ ((exists es, @nil value = [] ++ [es]) <-> (0 < c1 \/ 0 < c2)).
Proof.
  assert (safe_str sample_float_repr (row_get row_no_tactic "scenario" CNone)
          <> CNone) as Hscen by (vm_compute; discriminate).
  assert (process_row sample_float_repr sample_int_of_str [] row_no_tactic
          = Ok [ VList [ group_entry [3; 2] [ ("main", VDict []) ] ] ])
    as Hp by (vm_compute; reflexivity).
  assert (safe_str sample_float_repr (row_get row_zero_count "scenario" CNone)
          <> CNone) as Hscen0 by (vm_compute; discriminate).
  assert (process_row sample_float_repr sample_int_of_str [] row_zero_count
          = Ok []) as Hp0 by (vm_compute; reflexivity).
  pose proof (scenario_appended_iff sample_float_repr sample_int_of_str
                [] row_zero_count) as (_ & Hcount & Hrow & _).
  split; [exact Hscen|]. split; [exact Hp|]. split.
  { destruct (proj1 (proj2 (proj2 (scenario_appended_iff sample_float_repr
                                     sample_int_of_str [] row_no_tactic)))
                _ Hscen Hp)
      as (c1 & c2 & es1 & es2 & Hc1 & Hc2 & _ & _ & _ & _ & Hiff & _).
    exists c1, c2. split; [exact Hc1|]. split; [exact Hc2|]. exact Hiff. }
  split; [reflexivity|].
  split; [exact (proj1 (proj2 (Hcount "first group")) 0 eq_refl)|].
  split; [reflexivity|].
  split; [exact (proj1 (Hcount "second group") eq_refl)|].
  split; [exact Hscen0|]. split; [exact Hp0|].
  destruct (Hrow _ Hscen0 Hp0)
    as (c1 & c2 & es1 & es2 & Hc1 & Hc2 & _ & _ & _ & _ & Hiff & _).
  exists c1, c2. split; [exact Hc1|]. split; [exact Hc2|]. exact Hiff.
Defined.

Lemma tactic_block_has_main_witness :
  build_suppression sample_float_repr sample_int_of_str "g1_" "g1a_"
    row_no_tactic = Ok [ ("main", VDict []) ]
  /\ safe_str sample_float_repr (field row_no_tactic "g1_" "select_poi") = CNone
  /\ safe_str sample_float_repr (field row_no_tactic "g1_" "track_poi") = CNone
  /\ safe_str sample_float_repr (field row_no_tactic "g1_" "suppress") = CNone
  /\ exists m, dict_get "main" [ ("main", VDict []) ] = Some (VDict m)
               /\ m = [].
Proof.
  assert (build_suppression sample_float_repr sample_int_of_str "g1_" "g1a_"
            row_no_tactic = Ok [ ("main", VDict []) ]) as Hb
    by (vm_compute; reflexivity).
  split; [exact Hb|]. repeat (split; [reflexivity|]).
  destruct (proj1 (tactic_block_has_main sample_float_repr sample_int_of_str
                     "g1_" "g1a_" row_no_tactic) _ Hb) as (m & Hm & Hblank).
  exists m. split; [exact Hm|]. apply Hblank; reflexivity.
Defined.

(** * Instances of the further properties *)

Lemma distribute_single_formula_witness :
  1 <= 3 /\ 0 <= 1
  /\ distribute_across_bases 1 3
     = Ok (replicate (Z.to_nat (1 `mod` 3)) (1 `div` 3 + 1)
           ++ replicate (Z.to_nat (3 - 1 `mod` 3)) (1 `div` 3)).
Proof.
  split; [lia|]. split; [lia|].
  apply (distribute_single_formula 1 3); lia.
Defined.

Lemma distribute_balanced_witness :
  1 <= 3 /\ 0 <= 7
  /\ exists counts,
       distribute_across_bases 7 3 = Ok counts
       /\ forall (i j : nat) (ci cj : Z),
            (i <= j)%nat -> counts !! i = Some ci -> counts !! j = Some cj ->
            cj <= ci <= cj + 1.
Proof.
  split; [lia|]. split; [lia|].
  apply (distribute_balanced 7 3); lia.
Defined.

Lemma distribute_one_more_each_witness :
  1 <= 3 /\ 0 <= 1
  /\ exists counts,
       distribute_across_bases 1 3 = Ok counts
       /\ distribute_across_bases (1 + 3) 3 = Ok ((fun c => c + 1) <$> counts).
Proof.
  split; [lia|]. split; [lia|].
  apply (distribute_one_more_each 1 3); lia.
Defined.

Lemma distribute_negative_bases_witness :
  -2 < 0 /\ -2 <= 0 /\ distribute_across_bases 0 (-2) = Ok [].
Proof.
  split; [lia|]. split; [lia|].
  apply (distribute_negative_bases 0 (-2)); lia.
Defined.

Lemma distribute_served_bases_witness :
  1 <= 5 /\ 0 <= 2
  /\ exists counts,
       distribute_across_bases 2 5 = Ok counts
       /\ Z.of_nat (length (filter (fun c => 0 < c) counts)) = Z.min 2 5.
Proof.
  split; [lia|]. split; [lia|].
  apply (distribute_served_bases 2 5); lia.
Defined.

Lemma safe_str_ignores_padding_witness :
  all_space "  " = true /\ all_space " " = true
  /\ safe_str sample_float_repr (CStr ("  " +:+ "a b" +:+ " "))
     = safe_str sample_float_repr (CStr "a b").
Proof.
  split; [reflexivity|]. split; [reflexivity|].
  apply (safe_str_ignores_padding sample_float_repr "  " "a b" " ");
    reflexivity.
Defined.

Lemma main_tactic_mirrors_cells_witness :
  build_suppression sample_float_repr sample_int_of_str "g1_" "g1a_"
    row_change_condition = Ok sample_block
  /\ exists m,
       dict_get "main" sample_block = Some (VDict m)
       /\ sublist (dict_keys m) [ "select_poi"; "track_poi"; "suppress" ]
       /\ forall k, k ∈ [ "select_poi"; "track_poi"; "suppress" ] ->
            (forall s, dict_get k m = Some (VStr s)
                       <-> safe_str sample_float_repr
                             (field row_change_condition "g1_" k) = CStr s)
            /\ (dict_get k m = None
                <-> safe_str sample_float_repr
                      (field row_change_condition "g1_" k) = CNone).
Proof.
  assert (build_suppression sample_float_repr sample_int_of_str "g1_" "g1a_"
            row_change_condition = Ok sample_block) as Hb
    by (vm_compute; reflexivity).
  split; [exact Hb|].
  exact (main_tactic_mirrors_cells sample_float_repr sample_int_of_str
           "g1_" "g1a_" row_change_condition sample_block Hb).
Defined.

Lemma alternative_emitted_iff_witness :
  build_suppression sample_float_repr sample_int_of_str "g1_" "g1a_"
    row_change_condition = Ok sample_block
  /\ (dict_get "alternative" sample_block <> None
      <-> alt_trigger sample_float_repr "g1_" "g1a_" row_change_condition
          = true).
Proof.
  assert (build_suppression sample_float_repr sample_int_of_str "g1_" "g1a_"
            row_change_condition = Ok sample_block) as Hb
    by (vm_compute; reflexivity).
  split; [exact Hb|].
  exact (alternative_emitted_iff sample_float_repr sample_int_of_str
           "g1_" "g1a_" row_change_condition sample_block Hb).
Defined.

Lemma block_key_order_witness :
  build_suppression sample_float_repr sample_int_of_str "g1_" "g1a_"
    row_change_condition = Ok sample_block
  /\ (dict_keys sample_block = [ "main" ]
      \/ (dict_keys sample_block = [ "main"; "alternative" ]
          /\ exists a keys,
               dict_get "alternative" sample_block = Some (VDict a)
               /\ dict_keys a = keys ++ [ "alternative_tactic" ]
               /\ sublist keys [ "change_condition"; "threshold" ])).
Proof.
  assert (build_suppression sample_float_repr sample_int_of_str "g1_" "g1a_"
            row_change_condition = Ok sample_block) as Hb
    by (vm_compute; reflexivity).
  split; [exact Hb|].
  exact (block_key_order sample_float_repr sample_int_of_str
           "g1_" "g1a_" row_change_condition sample_block Hb).
Defined.

Lemma alternative_tactic_complete_witness :
  build_suppression sample_float_repr sample_int_of_str "g1_" "g1a_"
    row_change_condition = Ok sample_block
  /\ dict_get "alternative" sample_block = Some (VDict sample_alt_object)
  /\ exists sel track sup,
       dict_get "alternative_tactic" sample_alt_object
       = Some (VDict [ ("select_poi", VStr sel);
                       ("track_poi", VStr track);
                       ("suppress", VStr sup) ])
       /\ sel <> "" /\ track <> "" /\ sup <> "".
Proof.
  assert (build_suppression sample_float_repr sample_int_of_str "g1_" "g1a_"
            row_change_condition = Ok sample_block) as Hb
    by (vm_compute; reflexivity).
  split; [exact Hb|]. split; [reflexivity|].
  exact (alternative_tactic_complete sample_float_repr sample_int_of_str
           "g1_" "g1a_" row_change_condition sample_block sample_alt_object
           Hb eq_refl).
Defined.

Lemma written_threshold_not_nan_witness :
  build_suppression sample_float_repr sample_int_of_str "g1_" "g1a_"
    row_change_condition = Ok sample_block
  /\ dict_get "alternative" sample_block = Some (VDict sample_alt_object)
  /\ dict_get "threshold" sample_alt_object = Some (VInt 3)
  /\ exists out, VInt 3 = Scalar out /\ isna out = false.
Proof.
  assert (build_suppression sample_float_repr sample_int_of_str "g1_" "g1a_"
            row_change_condition = Ok sample_block) as Hb
    by (vm_compute; reflexivity).
  split; [exact Hb|]. split; [reflexivity|]. split; [reflexivity|].
  exact (written_threshold_not_nan sample_float_repr sample_int_of_str
           "g1_" "g1a_" row_change_condition sample_block sample_alt_object
           (VInt 3) Hb eq_refl eq_refl).
Defined.

Lemma build_suppression_reads_own_fields_witness :
  (forall name, name ∈ tactic_fields ->
     field row_both_groups "g1_" name = field row_condition_only "g1_" name
     /\ field row_both_groups "g1a_" name
        = field row_condition_only "g1a_" name)
  /\ build_suppression sample_float_repr sample_int_of_str "g1_" "g1a_"
       row_both_groups
     = build_suppression sample_float_repr sample_int_of_str "g1_" "g1a_"
         row_condition_only.
Proof.
  assert (forall name, name ∈ tactic_fields ->
            field row_both_groups "g1_" name
            = field row_condition_only "g1_" name
            /\ field row_both_groups "g1a_" name
               = field row_condition_only "g1a_" name) as H.
  { intros name Hn. unfold tactic_fields in Hn.
    repeat (apply elem_of_cons in Hn as [->|Hn]);
      try (split; vm_compute; reflexivity);
      try (by apply elem_of_nil in Hn). }
  split; [exact H|].
  exact (build_suppression_reads_own_fields sample_float_repr
           sample_int_of_str "g1_" "g1a_" row_both_groups row_condition_only
           H).
Defined.

Lemma add_group_two_bases_witness :
  add_group sample_float_repr sample_int_of_str "first group" "g1_" "g1a_"
    row_no_tactic []
  = Ok [ group_entry [3; 2] [ ("main", VDict []) ] ]
  /\ group_count sample_int_of_str row_no_tactic "first group" = Ok 5
  /\ 0 < 5
  /\ exists sup,
       build_suppression sample_float_repr sample_int_of_str "g1_" "g1a_"
         row_no_tactic = Ok sup
       /\ [ group_entry [3; 2] [ ("main", VDict []) ] ]
          = [] ++ [ group_entry [ (5 + 1) `div` 2; 5 `div` 2 ] sup ].
Proof.
  assert (add_group sample_float_repr sample_int_of_str "first group"
            "g1_" "g1a_" row_no_tactic []
          = Ok [ group_entry [3; 2] [ ("main", VDict []) ] ]) as Ha
    by (vm_compute; reflexivity).
  assert (group_count sample_int_of_str row_no_tactic "first group" = Ok 5)
    as Hc by (vm_compute; reflexivity).
  split; [exact Ha|]. split; [exact Hc|]. split; [lia|].
  exact (add_group_two_bases sample_float_repr sample_int_of_str
           "first group" "g1_" "g1a_" row_no_tactic [] _ 5 Ha Hc
           ltac:(lia)).
Defined.

Lemma group_count_truncates_witness :
  row_get row_fractional_count "first group" CNone
  = CFloat (S754_finite false 5 (-1))
  /\ exists z,
       group_count sample_int_of_str row_fractional_count "first group" = Ok z
       /\ 0 <= z
       /\ Z.abs z * 2 ^ Z.max 0 (- -1) <= 5 * 2 ^ Z.max 0 (-1)
       /\ 5 * 2 ^ Z.max 0 (-1) < (Z.abs z + 1) * 2 ^ Z.max 0 (- -1).
Proof.
  split; [reflexivity|].
  exact (group_count_truncates sample_int_of_str row_fractional_count
           "first group" false 5 (-1) eq_refl).
Defined.

Lemma main_loop_well_formed_witness :
  exists scenarios,
    main_loop sample_float_repr sample_int_of_str []
      [ row_both_groups; row_zero_count; row_second_group ] = Ok scenarios
    /\ Forall well_formed_scenario scenarios
    /\ (length scenarios <= 3)%nat.
Proof.
  destruct (main_loop sample_float_repr sample_int_of_str []
              [ row_both_groups; row_zero_count; row_second_group ])
    as [scenarios|] eqn:Hl; [|vm_compute in Hl; discriminate].
  exists scenarios. split; [reflexivity|].
  exact (main_loop_well_formed sample_float_repr sample_int_of_str
           [ row_both_groups; row_zero_count; row_second_group ]
           scenarios Hl).
Defined.

Lemma group_count_raises_iff_witness :
  row_fractional_count !! "second group" = None
  /\ group_count sample_int_of_str row_fractional_count "second group" = Ok 0
  /\ row_get row_zero_count "first group" CNone = CInt 0
  /\ group_count sample_int_of_str row_zero_count "first group" = Ok 0.
Proof.
  split; [reflexivity|].
  split;
    [exact (proj1 (proj2 (group_count_raises_iff sample_int_of_str
                            row_fractional_count "second group")) eq_refl)|].
  split; [reflexivity|].
  exact (proj1 (proj2 (proj2 (proj2 (group_count_raises_iff sample_int_of_str
                                       row_zero_count "first group"))))
           0 eq_refl).
Defined.
